(** * CreditGuard research logger: recorder and aggregator

    A shallow embedding of [src/utils/logger.py] (class [ResearchLogger])
    and the properties of its two operations: [log_decision], which appends
    one row per decision to a CSV store, and [get_summary_stats], which
    reads the whole store back and derives the summary metrics.

    Python values are modelled as the code has them: [int] as [Z],
    [float] as IEEE binary64 ([spec_float] at precision 53), [str] as
    [string], [None]-able values as [option], dictionaries as [gmap], and
    exceptions as the [Raise] branch of a result monad. The methods are
    given twice: as functions on the file system, and as programs over the
    operations they perform on the instance and on the files, with the
    proof that the two agree. *)

From Stdlib Require Import ZArith String Ascii List Lia.
From Stdlib Require Import Floats.SpecFloat.
From stdpp Require Import base option list gmap strings fin_maps.

Local Open Scope string_scope.
Local Open Scope Z_scope.

(** ** Exceptions and the result monad *)

Inductive exn : Type :=
| KeyError (key : string)
| ValueError
| TypeError
| ZeroDivisionError
| OverflowError.

Inductive result (A : Type) : Type :=
| Ok (a : A)
| Raise (e : exn).
Arguments Ok {A} a.
Arguments Raise {A} e.

Definition result_bind {A B : Type} (f : A -> result B) (r : result A) : result B :=
  match r with
  | Ok a => f a
  | Raise e => Raise e
  end.

#[global] Instance result_ret : MRet result := fun A a => Ok a.
#[global] Instance result_mbind : MBind result := fun A B f r => result_bind f r.
#[global] Instance result_fmap : FMap result :=
  fun A B f r => result_bind (fun a => Ok (f a)) r.

(** Evaluates [f] on the elements from left to right and stops at the first
    exception, as a generator expression consumed by [sum] or [list] does. *)
Fixpoint for_each {A B : Type} (f : A -> result B) (l : list A) : result (list B) :=
  match l with
  | [] => Ok []
  | x :: l' =>
      match f x with
      | Ok y =>
          match for_each f l' with
          | Ok ys => Ok (y :: ys)
          | Raise e => Raise e
          end
      | Raise e => Raise e
      end
  end.

(** The computation does not end in a [ZeroDivisionError]. *)
Definition no_zero_division {A : Type} (r : result A) : Prop :=
  r <> Raise ZeroDivisionError.

(** ** Python integers as text: [str(int)] and [int(str)] *)

Module PyInt.

Definition digit_char (d : Z) : ascii := ascii_of_nat (48 + Z.to_nat d).

Definition digit_val (c : ascii) : option Z :=
  let n := Z.of_nat (nat_of_ascii c) in
  if (48 <=? n) && (n <=? 57) then Some (n - 48) else None.

(** Most significant digit first; [fuel] bounds the number of further
    digits and [Z.log2 n] is always enough. *)
Fixpoint digits_of (fuel : nat) (n : Z) (acc : string) : string :=
  let acc' := String (digit_char (n mod 10)) acc in
  match fuel with
  | O => acc'
  | S fuel' => if n <? 10 then acc' else digits_of fuel' (n / 10) acc'
  end.

(** [str(z)]: decimal, a leading minus sign for negative numbers. *)
Definition str (z : Z) : string :=
  if z <? 0
  then String "-" (digits_of (Z.to_nat (Z.log2 (- z))) (- z) "")
  else digits_of (Z.to_nat (Z.log2 z)) z "".

(** The characters that [int] strips around a literal in ASCII text: tab,
    line feed, vertical tab, form feed, carriage return and space. *)
Definition is_space (c : ascii) : bool :=
  let n := Z.of_nat (nat_of_ascii c) in
  ((9 <=? n) && (n <=? 13)) || (n =? 32).

(** The text holds ASCII characters only. *)
Definition is_ascii (s : string) : bool :=
  forallb (fun c => Z.of_nat (nat_of_ascii c) <? 128) (list_ascii_of_string s).

Fixpoint lstrip (s : string) : string :=
  match s with
  | String c s' => if is_space c then lstrip s' else s
  | EmptyString => EmptyString
  end.

Fixpoint all_space (s : string) : bool :=
  match s with
  | String c s' => is_space c && all_space s'
  | EmptyString => true
  end.

(** Digits with single underscores between them, then optional trailing
    white space. [prev] tells that the previous character was a digit. *)
Fixpoint parse_digits (prev : bool) (acc : Z) (s : string) : option Z :=
  match s with
  | EmptyString => if prev then Some acc else None
  | String c s' =>
      match digit_val c with
      | Some d => parse_digits true (acc * 10 + d) s'
      | None =>
          if prev then
            if Ascii.eqb c "_" then parse_digits false acc s'
            else if all_space s then Some acc else None
          else None
      end
  end.

(** [int(s)] in base 10 on ASCII text; [None] stands for [ValueError].
    On text with other characters [int] also reads the decimal digits of
    other scripts, which a string of bytes does not show; the properties
    that turn on a cell that does not parse are stated for ASCII cells.
    The interpreter's cap on the number of digits of a literal is left
    out. *)
Definition parse (s : string) : option Z :=
  match lstrip s with
  | String "-" s' => Z.opp <$> parse_digits false 0 s'
  | String "+" s' => parse_digits false 0 s'
  | s' => parse_digits false 0 s'
  end.

End PyInt.

(** ** Python floats: IEEE binary64 *)

Module PyFloat.

Abbreviation float := spec_float.

Definition prec : Z := 53.
Definition emax : Z := 1024.

Definition add : float -> float -> float := SFadd prec emax.
Definition mul : float -> float -> float := SFmul prec emax.
Definition div : float -> float -> float := SFdiv prec emax.

Definition is_infinite (f : float) : bool :=
  match f with
  | S754_infinity _ => true
  | _ => false
  end.

Definition is_zero (f : float) : bool :=
  match f with
  | S754_zero _ => true
  | _ => false
  end.

(** [float(z)]: the nearest binary64, [OverflowError] beyond the range. *)
Definition of_int (z : Z) : result float :=
  let f := binary_normalize prec emax z 0 false in
  if is_infinite f then Raise OverflowError else Ok f.

(** The integer as an exact, not normalised, float: the operand of a
    correctly rounded integer quotient. *)
Definition exact (z : Z) : float :=
  match z with
  | Z0 => S754_zero false
  | Zpos p => S754_finite false p 0
  | Zneg p => S754_finite true p 0
  end.

(** [a / b] on two integers: the correctly rounded quotient. *)
Definition int_truediv (a b : Z) : result float :=
  if b =? 0 then Raise ZeroDivisionError
  else
    let q := div (exact a) (exact b) in
    if is_infinite q then Raise OverflowError else Ok q.

(** [x / n] with a float [x] and an integer [n]. *)
Definition truediv_int (x : float) (n : Z) : result float :=
  match of_int n with
  | Ok d => if is_zero d then Raise ZeroDivisionError else Ok (div x d)
  | Raise e => Raise e
  end.

(** [n * y] with an integer [n] and a float [y]. *)
Definition int_mul (n : Z) (y : float) : result float :=
  match of_int n with
  | Ok x => Ok (mul x y)
  | Raise e => Raise e
  end.

(** [sum] of floats as the interpreters without compensation compute it:
    a left fold of [+] from the integer [0]. *)
Definition sum (l : list float) : float :=
  fold_left add l (S754_zero false).

(** Python's [==] between a float and an integer, for the integers
    binary64 represents exactly. *)
Definition eq_int (f : float) (z : Z) : bool :=
  match SFcompare f (binary_normalize prec emax z 0 false) with
  | Some Eq => true
  | _ => false
  end.

End PyFloat.

(** ** The schemas of [src/core/schemas.py] *)

(** Modelled from the spec: the types that [src/core/schemas.py] declares
    and that the decision record only carries through, each with the text
    the recorder writes for it: the instant of the decision with
    [isoformat()], the routing-strategy enumeration with [.value], and the
    final categorical outcome with [str()]. *)
Class Schemas : Type := {
  datetime : Type;
  isoformat : datetime -> string;
  RoutingStrategy : Type;
  value : RoutingStrategy -> string;
  Outcome : Type;
  outcome_str : Outcome -> string
}.

(** What the Python runtime does on floats beyond the arithmetic of
    binary64: the text forms [str(f)], which the CSV writer applies to a
    float cell, and [float(s)], [None] standing for [ValueError]; and
    [sum] over floats, which interpreters compute by a plain fold of [+]
    or by a fold that compensates the rounding errors. *)
Class FloatText : Type := {
  float_str : PyFloat.float -> string;
  float_parse : string -> option PyFloat.float;
  float_sum : list PyFloat.float -> PyFloat.float
}.

(** Modelled from the spec: the sub-records of a DecisionRecord. *)
Record MLPrediction : Type := {
  confidence_score : PyFloat.float;
  default_probability : PyFloat.float
}.

Record AgentResult : Type := { tokens_used : Z }.

Record FairnessCheck : Type := {
  is_triggered : bool;
  decision_changed : bool
}.

Module CreditDecision.

(** Modelled from the spec: the DecisionRecord handed to the recorder. *)
Record t `{Schemas} : Type := {
  timestamp : datetime;
  applicant_id : string;
  routing_strategy_used : RoutingStrategy;
  ml_prediction : option MLPrediction;
  llm_results : list AgentResult;
  total_tokens : Z;
  processing_time_ms : PyFloat.float;
  fairness_check : option FairnessCheck;
  decision : Outcome;
  final_risk_score : PyFloat.float
}.

End CreditDecision.

Module ResearchLog.

(** Modelled from the spec: the LogRow, the fifteen fields that
    [log_decision] passes to the [ResearchLog] constructor, which keeps
    them as they are. *)
Record t `{Schemas} : Type := {
  timestamp : datetime;
  applicant_id : string;
  routing_strategy : RoutingStrategy;
  ml_confidence_score : option PyFloat.float;
  ml_prediction : option PyFloat.float;
  total_tokens : Z;
  prompt_tokens : Z;
  completion_tokens : Z;
  latency_ms : PyFloat.float;
  active_key_id : string;
  key_switches : Z;
  is_fairness_triggered : bool;
  fairness_decision_changed : bool;
  final_decision : Outcome;
  risk_score : PyFloat.float
}.

End ResearchLog.

(** ** The CSV store *)

Module Csv.

(** The values [log_decision] hands to [writerow]. *)
Inductive pyval : Type :=
| PStr (s : string)
| PNone
| PInt (z : Z)
| PFloat (f : PyFloat.float)
| PBool (b : bool).

(** One record of the file: its cells, as text. *)
Abbreviation record := (list string).

(** A CSV file as the [csv] module writes and reads it: its records in
    file order. An empty record is a blank line. The quoting and the line
    ends that carry a cell from [writerow] to the reader belong to the
    [csv] module; [DictReader] below takes the records as they were
    written, and [read_cell] says for which cells the reader of the logger
    does so. *)
Abbreviation file := (list record).

(** The file is written with [newline=''] and read without it, so the
    reader sees every carriage return, alone or before a line feed, as a
    line feed. *)
Fixpoint universal_newlines (s : string) : string :=
  match s with
  | EmptyString => EmptyString
  | String c s' =>
      if Ascii.eqb c "013" then
        match s' with
        | String c' s'' =>
            if Ascii.eqb c' "010"
            then String "010" (universal_newlines s'')
            else String "010" (universal_newlines s')
        | EmptyString => String "010" EmptyString
        end
      else String c (universal_newlines s')
  end.

(** The longest field that [csv.reader] accepts. *)
Definition field_size_limit : Z := 131072.

(** What the reader of the logger returns for a cell that was written:
    the text with its line ends translated, or [None], which stands for
    [_csv.Error], when that text is longer than the field limit. *)
Definition read_cell (cell : string) : option string :=
  let text := universal_newlines cell in
  if Z.of_nat (String.length text) <=? field_size_limit then Some text else None.

(** The reader returns every cell of the record as it was written. *)
Definition as_written (r : record) : Prop :=
  Forall (fun cell => read_cell cell = Some cell) r.

(** The text [csv.writer] emits for a value: nothing for [None], the
    string itself, [str(v)] for any other value. *)
Definition cell `{FloatText} (v : pyval) : string :=
  match v with
  | PStr s => s
  | PNone => ""
  | PInt z => PyInt.str z
  | PFloat f => float_str f
  | PBool b => if b then "True" else "False"
  end.

(** [writer.writerow(row)] on a file opened for writing or appending. *)
Definition writerow `{FloatText} (row : list pyval) (f : file) : file :=
  (f ++ [map cell row])%list.

(** A row of [csv.DictReader]: column name to cell, [None] where the
    record is shorter than the header. *)
Abbreviation dictrow := (gmap string (option string)).

(** [dict(zip(fieldnames, row))], then [restval] for the missing cells.
    The surplus cells of a longer record go under the key [None], which no
    lookup of the logger reads. *)
Definition make_row (fieldnames : record) (row : record) : dictrow :=
  let d := fold_left (fun d kv => <[fst kv := Some (snd kv)]> d)
                     (combine fieldnames row) (∅ : dictrow) in
  fold_left (fun d k => <[k := None]> d) (drop (length row) fieldnames) d.

(** [list(csv.DictReader(f))]: the first record names the fields, blank
    records after it are skipped. *)
Definition DictReader (f : file) : list dictrow :=
  match f with
  | [] => []
  | fieldnames :: records =>
      map (make_row fieldnames)
          (filter (fun r => r ≠ []) records)
  end.

End Csv.

(** The file system: the files that exist, each under its path. A path
    stands for the file that the operating system resolves it to: two names
    of one file are one key. *)
Abbreviation filesystem := (gmap string Csv.file).

(** ** The statistics of [get_summary_stats] *)

(** A number that is an [int] on one path and a [float] on another. *)
Inductive pynum : Type :=
| NInt (z : Z)
| NFloat (f : PyFloat.float).

(** Python's [n == z] for a number and an integer. *)
Definition num_eq_int (n : pynum) (z : Z) : bool :=
  match n with
  | NInt z' => z' =? z
  | NFloat f => PyFloat.eq_int f z
  end.

(** Python's [n > z] for a number and an integer. *)
Definition num_gt_int (n : pynum) (z : Z) : bool :=
  match n with
  | NInt z' => z <? z'
  | NFloat f =>
      match SFcompare f (binary_normalize PyFloat.prec PyFloat.emax z 0 false) with
      | Some Gt => true
      | _ => false
      end
  end.

Record TokenUsage : Type := {
  total : Z;
  average_per_request : PyFloat.float;
  estimated_cost_usd : PyFloat.float
}.

Record Performance : Type := { average_latency_ms : PyFloat.float }.

Record FairnessMetrics : Type := {
  triggers : Z;
  decision_changes : Z;
  change_rate : pynum
}.

Record Resilience : Type := {
  total_key_switches : Z;
  switch_rate : PyFloat.float
}.

Record Stats : Type := {
  total_evaluations : Z;
  token_usage : TokenUsage;
  performance : Performance;
  routing_distribution : gmap (option string) Z;
  fairness_metrics : FairnessMetrics;
  resilience : Resilience
}.

(** What [get_summary_stats] returns: the dictionary with the single key
    ["error"], or the statistics. *)
Inductive Summary : Type :=
| Error (message : string)
| Statistics (s : Stats).

(** ** The logger *)

Record ResearchLogger : Type := { log_path : string }.

(** The number of elements that satisfy [p]. *)
Definition count {T : Type} (p : T -> bool) (l : list T) : Z :=
  Z.of_nat (length (filter (fun x => p x = true) l)).

(** The number of rows of the reader whose column [k] holds the text
    [True]. *)
Definition rows_marked (k : string) (rows : list Csv.dictrow) : Z :=
  count (fun r => bool_decide (r !! k = Some (Some "True"))) rows.

(** [sum] of integers. *)
Definition sum_int (l : list Z) : Z := fold_left Z.add l 0.

(** The mock price of a token, the literal [0.0000001]. *)
Definition mock_price : PyFloat.float :=
  PyFloat.div (PyFloat.exact 1) (PyFloat.exact 10000000).

Definition headers : Csv.record :=
  [ "timestamp"; "applicant_id"; "routing_strategy";
    "ml_confidence_score"; "ml_prediction";
    "total_tokens"; "prompt_tokens"; "completion_tokens";
    "latency_ms"; "active_key_id"; "key_switches";
    "is_fairness_triggered"; "fairness_decision_changed";
    "final_decision"; "risk_score" ].

(** The arithmetic of [get_summary_stats] once the columns are read:
    the statistics from the number of rows, the sum of the token totals,
    the sum of the latencies, the routing dictionary, the two fairness
    counts and the sum of the key switches. *)
Definition statistics_of (n tokens : Z) (latency : PyFloat.float)
    (routing : gmap (option string) Z) (tr ch switches : Z) : result Summary :=
  avg_tokens ← PyFloat.int_truediv tokens n;
  avg_latency ← PyFloat.truediv_int latency n;
  cost ← PyFloat.int_mul tokens mock_price;
  rate ← (if 0 <? tr then NFloat <$> PyFloat.int_truediv ch tr else Ok (NInt 0));
  switch_rate ← PyFloat.int_truediv switches n;
  mret (Statistics
    {| total_evaluations := n;
       token_usage :=
         {| total := tokens;
            average_per_request := avg_tokens;
            estimated_cost_usd := cost |};
       performance := {| average_latency_ms := avg_latency |};
       routing_distribution := routing;
       fairness_metrics :=
         {| triggers := tr; decision_changes := ch; change_rate := rate |};
       resilience :=
         {| total_key_switches := switches; switch_rate := switch_rate |} |}).

Section Logger.

Context `{Schemas} `{FloatText}.

(** [_init_csv]: the header is written only when the path does not exist;
    [open(path, 'w')] starts from an empty file. *)
Definition _init_csv (self : ResearchLogger) (fs : filesystem) : filesystem :=
  match fs !! log_path self with
  | Some _ => fs
  | None => <[log_path self := Csv.writerow (map Csv.PStr headers) []]> fs
  end.

(** [ResearchLogger(log_path)]. The parent directory that [mkdir] ensures
    is not part of the file system modelled here. *)
Definition __init__ (path : string) (fs : filesystem) : ResearchLogger * filesystem :=
  let self := {| log_path := path |} in
  (self, _init_csv self fs).

Definition _extract_key_id (decision : CreditDecision.t) : string :=
  match CreditDecision.llm_results decision with
  | _ :: _ => "key_used"
  | [] => "ml_only"
  end.

(** The [log_entry] that [log_decision] builds before it opens the file. *)
Definition log_entry (decision : CreditDecision.t) (key_switches : Z) : ResearchLog.t :=
  let total_tokens := CreditDecision.total_tokens decision in
  let prompt_tokens :=
    match CreditDecision.llm_results decision with
    | _ :: _ => sum_int (map tokens_used (CreditDecision.llm_results decision))
    | [] => 0
    end in
  let completion_tokens := total_tokens - prompt_tokens in
  let fairness_triggered :=
    match CreditDecision.fairness_check decision with
    | Some fc => is_triggered fc
    | None => false
    end in
  let fairness_changed :=
    match CreditDecision.fairness_check decision with
    | Some fc => decision_changed fc
    | None => false
    end in
  let ml_confidence :=
    match CreditDecision.ml_prediction decision with
    | Some ml => Some (confidence_score ml)
    | None => None
    end in
  let ml_prob :=
    match CreditDecision.ml_prediction decision with
    | Some ml => Some (default_probability ml)
    | None => None
    end in
  {| ResearchLog.timestamp := CreditDecision.timestamp decision;
     ResearchLog.applicant_id := CreditDecision.applicant_id decision;
     ResearchLog.routing_strategy := CreditDecision.routing_strategy_used decision;
     ResearchLog.ml_confidence_score := ml_confidence;
     ResearchLog.ml_prediction := ml_prob;
     ResearchLog.total_tokens := total_tokens;
     ResearchLog.prompt_tokens := prompt_tokens;
     ResearchLog.completion_tokens := completion_tokens;
     ResearchLog.latency_ms := CreditDecision.processing_time_ms decision;
     ResearchLog.active_key_id := _extract_key_id decision;
     ResearchLog.key_switches := key_switches;
     ResearchLog.is_fairness_triggered := fairness_triggered;
     ResearchLog.fairness_decision_changed := fairness_changed;
     ResearchLog.final_decision := CreditDecision.decision decision;
     ResearchLog.risk_score := CreditDecision.final_risk_score decision |}.

Definition opt_float (o : option PyFloat.float) : Csv.pyval :=
  match o with
  | Some f => Csv.PFloat f
  | None => Csv.PNone
  end.

(** The list that [log_decision] passes to [writerow]. *)
Definition row_values (e : ResearchLog.t) : list Csv.pyval :=
  [ Csv.PStr (isoformat (ResearchLog.timestamp e));
    Csv.PStr (ResearchLog.applicant_id e);
    Csv.PStr (value (ResearchLog.routing_strategy e));
    opt_float (ResearchLog.ml_confidence_score e);
    opt_float (ResearchLog.ml_prediction e);
    Csv.PInt (ResearchLog.total_tokens e);
    Csv.PInt (ResearchLog.prompt_tokens e);
    Csv.PInt (ResearchLog.completion_tokens e);
    Csv.PFloat (ResearchLog.latency_ms e);
    Csv.PStr (ResearchLog.active_key_id e);
    Csv.PInt (ResearchLog.key_switches e);
    Csv.PBool (ResearchLog.is_fairness_triggered e);
    Csv.PBool (ResearchLog.fairness_decision_changed e);
    Csv.PStr (outcome_str (ResearchLog.final_decision e));
    Csv.PFloat (ResearchLog.risk_score e) ].

(** [log_decision]: [open(path, 'a')] starts from the file under the path,
    or from an empty file when there is none. *)
Definition log_decision (self : ResearchLogger) (decision : CreditDecision.t)
    (key_switches : Z) (fs : filesystem) : filesystem :=
  let e := log_entry decision key_switches in
  let f := default [] (fs !! log_path self) in
  <[log_path self := Csv.writerow (row_values e) f]> fs.

(** The record that one call of [log_decision] appends. *)
Definition csv_row (call : CreditDecision.t * Z) : Csv.record :=
  map Csv.cell (row_values (log_entry (fst call) (snd call))).

(** [r[k]] on a row of the reader. *)
Definition getitem (r : Csv.dictrow) (k : string) : result (option string) :=
  match r !! k with
  | Some v => Ok v
  | None => Raise (KeyError k)
  end.

(** [int(v)] on a cell. *)
Definition py_int (v : option string) : result Z :=
  match v with
  | None => Raise TypeError
  | Some s =>
      match PyInt.parse s with
      | Some z => Ok z
      | None => Raise ValueError
      end
  end.

(** [float(v)] on a cell. *)
Definition py_float (v : option string) : result PyFloat.float :=
  match v with
  | None => Raise TypeError
  | Some s =>
      match float_parse s with
      | Some f => Ok f
      | None => Raise ValueError
      end
  end.

(** [sum(1 for r in rows if r[k] == 'True')]. *)
Definition count_true (k : string) (rows : list Csv.dictrow) : result Z :=
  flags ← for_each (fun r => v ← getitem r k; mret (bool_decide (v = Some "True"))) rows;
  mret (sum_int (map (fun _ : bool => 1) (filter (fun b : bool => b = true) flags))).

(** The loop that fills [routing_dist]. *)
Fixpoint routing_loop (rows : list Csv.dictrow) (routing_dist : gmap (option string) Z)
    : result (gmap (option string) Z) :=
  match rows with
  | [] => Ok routing_dist
  | r :: rows' =>
      strategy ← getitem r "routing_strategy";
      routing_loop rows' (<[strategy := default 0 (routing_dist !! strategy) + 1]> routing_dist)
  end.

Definition get_summary_stats (self : ResearchLogger) (fs : filesystem) : result Summary :=
  match fs !! log_path self with
  | None => Ok (Error "No logs found")
  | Some f =>
      let rows := Csv.DictReader f in
      match rows with
      | [] => Ok (Error "Log file is empty")
      | _ :: _ =>
          let total := Z.of_nat (length rows) in
          tokens ← for_each (fun r => getitem r "total_tokens" ≫= py_int) rows;
          let total_tokens := sum_int tokens in
          avg_tokens ← PyFloat.int_truediv total_tokens total;
          latencies ← for_each (fun r => getitem r "latency_ms" ≫= py_float) rows;
          avg_latency ← PyFloat.truediv_int (float_sum latencies) total;
          routing_dist ← routing_loop rows ∅;
          fairness_triggers ← count_true "is_fairness_triggered" rows;
          fairness_changes ← count_true "fairness_decision_changed" rows;
          switches ← for_each (fun r => getitem r "key_switches" ≫= py_int) rows;
          let total_switches := sum_int switches in
          cost ← PyFloat.int_mul total_tokens mock_price;
          rate ←
            (if 0 <? fairness_triggers
             then NFloat <$> PyFloat.int_truediv fairness_changes fairness_triggers
             else Ok (NInt 0));
          switch_rate ← PyFloat.int_truediv total_switches total;
          mret (Statistics
            {| total_evaluations := total;
               token_usage :=
                 {| total := total_tokens;
                    average_per_request := avg_tokens;
                    estimated_cost_usd := cost |};
               performance := {| average_latency_ms := avg_latency |};
               routing_distribution := routing_dist;
               fairness_metrics :=
                 {| triggers := fairness_triggers;
                    decision_changes := fairness_changes;
                    change_rate := rate |};
               resilience :=
                 {| total_key_switches := total_switches;
                    switch_rate := switch_rate |} |})
      end
  end.

(** The part of [get_summary_stats] that follows the reading of the file:
    what it makes of the rows of the reader. *)
Definition aggregate (rows : list Csv.dictrow) : result Summary :=
  match rows with
  | [] => Ok (Error "Log file is empty")
  | _ :: _ =>
      let total := Z.of_nat (length rows) in
      tokens ← for_each (fun r => getitem r "total_tokens" ≫= py_int) rows;
      let total_tokens := sum_int tokens in
      avg_tokens ← PyFloat.int_truediv total_tokens total;
      latencies ← for_each (fun r => getitem r "latency_ms" ≫= py_float) rows;
      avg_latency ← PyFloat.truediv_int (float_sum latencies) total;
      routing_dist ← routing_loop rows ∅;
      fairness_triggers ← count_true "is_fairness_triggered" rows;
      fairness_changes ← count_true "fairness_decision_changed" rows;
      switches ← for_each (fun r => getitem r "key_switches" ≫= py_int) rows;
      let total_switches := sum_int switches in
      cost ← PyFloat.int_mul total_tokens mock_price;
      rate ←
        (if 0 <? fairness_triggers
         then NFloat <$> PyFloat.int_truediv fairness_changes fairness_triggers
         else Ok (NInt 0));
      switch_rate ← PyFloat.int_truediv total_switches total;
      mret (Statistics
        {| total_evaluations := total;
           token_usage :=
             {| total := total_tokens;
                average_per_request := avg_tokens;
                estimated_cost_usd := cost |};
           performance := {| average_latency_ms := avg_latency |};
           routing_distribution := routing_dist;
           fairness_metrics :=
             {| triggers := fairness_triggers;
                decision_changes := fairness_changes;
                change_rate := rate |};
           resilience :=
             {| total_key_switches := total_switches;
                switch_rate := switch_rate |} |})
  end.

(** What the properties below say of a call: whether its row carries a
    fairness trigger, whether it carries a decision change, and that the
    text of its latency reads back as the latency. *)
Definition triggered (call : CreditDecision.t * Z) : bool :=
  ResearchLog.is_fairness_triggered (log_entry (fst call) (snd call)).

Definition changed (call : CreditDecision.t * Z) : bool :=
  ResearchLog.fairness_decision_changed (log_entry (fst call) (snd call)).

Definition latency_readable (call : CreditDecision.t * Z) : Prop :=
  float_parse (float_str (CreditDecision.processing_time_ms (fst call)))
  = Some (CreditDecision.processing_time_ms (fst call)).

(** The row count and the two totals are integers that a float holds
    exactly. *)
Definition counts_in_range (calls : list (CreditDecision.t * Z)) : Prop :=
  Z.of_nat (length calls) < 2 ^ 53 /\
  Z.abs (sum_int (map (fun c => CreditDecision.total_tokens (fst c)) calls)) < 2 ^ 53 /\
  Z.abs (sum_int (map snd calls)) < 2 ^ 53.

(** A run of the recorder: the decisions, each with its [key_switches],
    logged in list order. *)
Definition log_all (self : ResearchLogger) (calls : list (CreditDecision.t * Z))
    (fs : filesystem) : filesystem :=
  fold_left (fun fs c => log_decision self (fst c) (snd c) fs) calls fs.

End Logger.

(** ** The methods as programs over the instance and the file system

    The same methods, step by step: every read or write of an attribute
    of the instance and every access to a file is an operation of the
    program, and [run] carries it out on the state of the process. A
    method could keep a result in an attribute or in a file between two
    calls; whether one does shows in its program. *)

(** The state outside a call: the attributes of the instance, by name, and
    the file system. *)
Record world : Type := {
  attrs : gmap string string;
  files : filesystem
}.

(** What ends a call early: an exception of the method itself, an
    attribute that the instance does not have, a file that does not
    exist. *)
Inductive raised : Type :=
| PyExn (e : exn)
| AttributeError (name : string)
| FileNotFoundError (path : string).

Inductive outcome (A : Type) : Type :=
| Returned (a : A)
| Failed (r : raised).
Arguments Returned {A} a.
Arguments Failed {A} r.

(** [Ok] and [Raise] of a computation, as outcomes. *)
Definition embed {A : Type} (r : result A) : outcome A :=
  match r with
  | Ok a => Returned a
  | Raise e => Failed (PyExn e)
  end.

(** The operations: [self.name], [self.name = value], [path.exists()],
    [writerow] on [open(path, 'w')], [writerow] on [open(path, 'a')] and
    [list(csv.DictReader(f))] on [open(path, 'r')]. *)
Inductive op : Type -> Type :=
| GetAttr (name : string) : op string
| SetAttr (name value : string) : op unit
| PathExists (path : string) : op bool
| WriteRow (path : string) (row : list Csv.pyval) : op unit
| AppendRow (path : string) (row : list Csv.pyval) : op unit
| ReadRows (path : string) : op (list Csv.dictrow).

Inductive prog (A : Type) : Type :=
| Ret (a : A)
| Throw (e : exn)
| Step {X : Type} (o : op X) (k : X -> prog A).
Arguments Ret {A} a.
Arguments Throw {A} e.
Arguments Step {A X} o k.

(** The end of a program that computes without any operation. *)
Definition lift {A : Type} (r : result A) : prog A :=
  match r with
  | Ok a => Ret a
  | Raise e => Throw e
  end.

(** The operations that leave the state as it is. *)
Definition reading {X : Type} (o : op X) : bool :=
  match o with
  | GetAttr _ | PathExists _ | ReadRows _ => true
  | SetAttr _ _ | WriteRow _ _ | AppendRow _ _ => false
  end.

(** Every operation that the program can reach is a reading one. *)
Fixpoint reads_only {A : Type} (p : prog A) : Prop :=
  match p with
  | Ret _ | Throw _ => True
  | Step o k => reading o = true /\ forall x, reads_only (k x)
  end.

(** A call made on the logger. *)
Inductive call `{Schemas} : Type :=
| Log (decision : CreditDecision.t) (key_switches : Z)
| Summarize.

Definition is_log `{Schemas} (c : call) : bool :=
  match c with
  | Log _ _ => true
  | Summarize => false
  end.

Section Programs.

Context `{Schemas} `{FloatText}.

Definition perform {X : Type} (o : op X) (w : world) : outcome X * world :=
  match o in op X return outcome X * world with
  | GetAttr name =>
      match attrs w !! name with
      | Some v => (Returned v, w)
      | None => (Failed (AttributeError name), w)
      end
  | SetAttr name value =>
      (Returned tt, {| attrs := <[name := value]> (attrs w); files := files w |})
  | PathExists path =>
      (Returned (bool_decide (is_Some (files w !! path))), w)
  | WriteRow path row =>
      (Returned tt,
       {| attrs := attrs w; files := <[path := Csv.writerow row []]> (files w) |})
  | AppendRow path row =>
      (Returned tt,
       {| attrs := attrs w;
          files := <[path := Csv.writerow row (default [] (files w !! path))]> (files w) |})
  | ReadRows path =>
      match files w !! path with
      | Some f => (Returned (Csv.DictReader f), w)
      | None => (Failed (FileNotFoundError path), w)
      end
  end.

Fixpoint run {A : Type} (p : prog A) (w : world) : outcome A * world :=
  match p with
  | Ret a => (Returned a, w)
  | Throw e => (Failed (PyExn e), w)
  | Step o k =>
      match perform o w with
      | (Returned x, w') => run (k x) w'
      | (Failed r, w') => (Failed r, w')
      end
  end.

Definition _init_csv_prog : prog unit :=
  Step (GetAttr "log_path") (fun path =>
  Step (PathExists path) (fun found =>
  if found then Ret tt
  else
    Step (GetAttr "log_path") (fun path' =>
    Step (WriteRow path' (map Csv.PStr headers)) Ret))).

(** [ResearchLogger(log_path)], the directory of the path apart. *)
Definition __init___prog (path : string) : prog unit :=
  Step (SetAttr "log_path" path) (fun _ => _init_csv_prog).

Definition log_decision_prog (decision : CreditDecision.t) (key_switches : Z)
    : prog unit :=
  let e := log_entry decision key_switches in
  Step (GetAttr "log_path") (fun path =>
  Step (AppendRow path (row_values e)) Ret).

Definition get_summary_stats_prog : prog Summary :=
  Step (GetAttr "log_path") (fun path =>
  Step (PathExists path) (fun found =>
  if found then
    Step (GetAttr "log_path") (fun path' =>
    Step (ReadRows path') (fun rows => lift (aggregate rows)))
  else Ret (Error "No logs found"))).

(** The calls of a session, one after the other on the same instance,
    with what each summary gave. *)
Fixpoint session (calls : list call) (w : world) : list (outcome Summary) * world :=
  match calls with
  | [] => ([], w)
  | Log decision key_switches :: rest =>
      session rest (snd (run (log_decision_prog decision key_switches) w))
  | Summarize :: rest =>
      let '(r, w') := run get_summary_stats_prog w in
      let '(rs, w'') := session rest w' in
      (r :: rs, w'')
  end.

End Programs.

(** ** A concrete instance, for the scenarios *)

Module Scenario.

Inductive strategy : Type := ML_ONLY | LLM_ONLY | HYBRID.

#[export] Instance schemas : Schemas := {|
  datetime := string;
  isoformat := fun s => s;
  RoutingStrategy := strategy;
  value := fun s =>
    match s with
    | ML_ONLY => "ml_only"
    | LLM_ONLY => "llm_only"
    | HYBRID => "hybrid"
    end;
  Outcome := string;
  outcome_str := fun s => s
|}.

#[export] Instance float_eq_dec : EqDecision PyFloat.float.
Proof. solve_decision. Defined.

Definition f0_0 : PyFloat.float := S754_zero false.
Definition f0_5 : PyFloat.float := S754_finite false 4503599627370496 (-53).
Definition f0_75 : PyFloat.float := S754_finite false 6755399441055744 (-53).
Definition f120_5 : PyFloat.float := S754_finite false 8479433673408512 (-46).
Definition f2_0 : PyFloat.float := S754_finite false 4503599627370496 (-51).

(** An excerpt of [str] and [float] on floats: the values the scenarios
    use, each with its shortest decimal form. *)
Definition float_table : list (PyFloat.float * string) :=
  [ (f0_0, "0.0"); (f0_5, "0.5"); (f0_75, "0.75"); (f120_5, "120.5"); (f2_0, "2.0") ].

#[export] Instance float_text : FloatText := {|
  float_str := fun f =>
    match find (fun e => bool_decide (fst e = f)) float_table with
    | Some e => snd e
    | None => "nan"
    end;
  float_parse := fun s =>
    match find (fun e => bool_decide (snd e = s)) float_table with
    | Some e => Some (fst e)
    | None => None
    end;
  float_sum := PyFloat.sum
|}.

Definition logger : ResearchLogger := {| log_path := "logs/research_logs.csv" |}.

(** The decision of the round-trip scenario. *)
Definition round_trip : CreditDecision.t := {|
  CreditDecision.timestamp := "2025-01-15T10:30:00";
  CreditDecision.applicant_id := "A-1";
  CreditDecision.routing_strategy_used := LLM_ONLY;
  CreditDecision.ml_prediction := None;
  CreditDecision.llm_results := [ {| tokens_used := 60 |}; {| tokens_used := 10 |} ];
  CreditDecision.total_tokens := 100;
  CreditDecision.processing_time_ms := f120_5;
  CreditDecision.fairness_check := Some {| is_triggered := true; decision_changed := false |};
  CreditDecision.decision := "approve";
  CreditDecision.final_risk_score := f0_5
|}.

(** A decision that only differs by its fairness check. *)
Definition with_fairness (triggered changed : bool) : CreditDecision.t := {|
  CreditDecision.timestamp := "2025-01-15T10:31:00";
  CreditDecision.applicant_id := "A-2";
  CreditDecision.routing_strategy_used := ML_ONLY;
  CreditDecision.ml_prediction :=
    Some {| confidence_score := f0_75; default_probability := f0_5 |};
  CreditDecision.llm_results := [];
  CreditDecision.total_tokens := 0;
  CreditDecision.processing_time_ms := f0_5;
  CreditDecision.fairness_check :=
    Some {| is_triggered := triggered; decision_changed := changed |};
  CreditDecision.decision := "deny";
  CreditDecision.final_risk_score := f0_75
|}.

(** No fairness check ever triggered, one decision marked as changed. *)
Definition untriggered_calls : list (CreditDecision.t * Z) :=
  [ (with_fairness false false, 0); (with_fairness false true, 1) ].

(** One triggered check that changed nothing, and two untriggered rows
    marked as changed. *)
Definition lopsided_calls : list (CreditDecision.t * Z) :=
  [ (with_fairness true false, 0); (with_fairness false true, 0);
    (with_fairness false true, 0) ].

(** The store after a fresh logger recorded [calls]. *)
Definition store_of (calls : list (CreditDecision.t * Z)) : filesystem :=
  let '(self, fs) := __init__ "logs/research_logs.csv" ∅ in
  log_all self calls fs.

End Scenario.

(** ** Further notions for the properties of the store and the summary *)

(** The number of rows of the reader whose column [routing_strategy]
    holds [key]. *)
Definition occurrences (key : option string) (rows : list Csv.dictrow) : Z :=
  count (fun r => bool_decide (r !! "routing_strategy" = Some key)) rows.

(** What a counting dictionary holds for a key that was seen [n] times. *)
Definition tally (n : Z) : option Z := if n =? 0 then None else Some n.


(** ** Further stores, for the scenarios *)

Module Cases.

Import Scenario.



(** The store of the logger with a record cut short by hand. *)
Definition truncated_row : Csv.record := ["2025-01-15T10:30:00"; "A-1"; "hybrid"].

Definition truncated : filesystem :=
  {[ log_path logger := [ headers; truncated_row ] ]}.

(** The record of the round trip with its token total overwritten. *)
Definition garbled_row : Csv.record :=
  <[5%nat := "n/a"]> (csv_row (round_trip, 2)).

Definition garbled : filesystem :=
  {[ log_path logger := [ headers; garbled_row ] ]}.

(** A decision without a fairness trigger whose token total is beyond the
    range of a float. *)
Definition huge : CreditDecision.t := {|
  CreditDecision.timestamp := "2025-01-15T10:32:00";
  CreditDecision.applicant_id := "A-3";
  CreditDecision.routing_strategy_used := ML_ONLY;
  CreditDecision.ml_prediction := None;
  CreditDecision.llm_results := [];
  CreditDecision.total_tokens := 2 ^ 1024;
  CreditDecision.processing_time_ms := f0_5;
  CreditDecision.fairness_check := None;
  CreditDecision.decision := "review";
  CreditDecision.final_risk_score := f0_5
|}.

(** A session on one instance: summaries before, between and after two
    logged decisions. *)
Definition busy_session : list call :=
  [ Summarize; Log round_trip 2; Summarize; Summarize;
    Log (with_fairness false true) 1; Summarize ].

(** The calls of [lopsided_calls] in another order. *)
Definition reordered_calls : list (CreditDecision.t * Z) :=
  [ (with_fairness false true, 0); (with_fairness true false, 0);
    (with_fairness false true, 0) ].

End Cases.

(** * Properties *)

(** ** Integers as text *)

Section PyIntText.

Import PyInt.

Lemma digit_val_char (d : Z) : 0 <= d < 10 -> digit_val (digit_char d) = Some d.
Proof.
  intros Hd.
  assert (Hc : d = 0 \/ d = 1 \/ d = 2 \/ d = 3 \/ d = 4 \/
               d = 5 \/ d = 6 \/ d = 7 \/ d = 8 \/ d = 9) by lia.
  repeat (destruct Hc as [-> | Hc]; [reflexivity |]).
  subst d. reflexivity.
Qed.

Lemma digit_char_plain (d : Z) :
  0 <= d < 10 ->
  is_space (digit_char d) = false /\
  digit_char d <> "-"%char /\ digit_char d <> "+"%char.
Proof.
  intros Hd.
  assert (Hc : d = 0 \/ d = 1 \/ d = 2 \/ d = 3 \/ d = 4 \/
               d = 5 \/ d = 6 \/ d = 7 \/ d = 8 \/ d = 9) by lia.
  repeat (destruct Hc as [-> | Hc]; [repeat split; discriminate |]).
  subst d. repeat split; discriminate.
Qed.

(** The printed digits read back as the number, after whatever was read
    before them. *)
Lemma parse_digits_of (fuel : nat) :
  forall (n : Z) (rest : string),
    0 <= n < 2 ^ Z.of_nat (S fuel) ->
    exists k : Z, 0 <= k /\
      forall (prev : bool) (acc : Z),
        parse_digits prev acc (digits_of fuel n rest)
        = parse_digits true (acc * 10 ^ k + n) rest.
Proof.
  induction fuel as [| fuel IH]; intros n rest Hn.
  - exists 1. split; [lia |]. intros prev acc.
    change (2 ^ Z.of_nat 1) with 2 in Hn.
    cbn [digits_of parse_digits].
    rewrite digit_val_char by (apply Z.mod_pos_bound; lia).
    rewrite Z.mod_small by lia. f_equal; lia.
  - cbn [digits_of]. destruct (Z.ltb_spec n 10) as [Hlt | Hge].
    + exists 1. split; [lia |]. intros prev acc.
      cbn [parse_digits].
      rewrite digit_val_char by (apply Z.mod_pos_bound; lia).
      rewrite Z.mod_small by lia. f_equal; lia.
    + assert (Hdiv : 0 <= n / 10 < 2 ^ Z.of_nat (S fuel)).
      { split; [apply Z.div_pos; lia |].
        apply Z.div_lt_upper_bound; [lia |].
        rewrite (Nat2Z.inj_succ (S fuel)), Z.pow_succ_r in Hn by lia. lia. }
      destruct (IH (n / 10) (String (digit_char (n mod 10)) rest) Hdiv)
        as (k & Hk & Hparse).
      exists (Z.succ k). split; [lia |]. intros prev acc.
      rewrite Hparse. cbn [parse_digits].
      rewrite digit_val_char by (apply Z.mod_pos_bound; lia).
      f_equal; rewrite ?Z.pow_succ_r by lia;
        pose proof (Z.div_mod n 10 ltac:(lia)); lia.
Qed.

Lemma digits_of_head (fuel : nat) :
  forall (n : Z) (rest : string),
    exists (d : Z) (tail : string),
      0 <= d < 10 /\ digits_of fuel n rest = String (digit_char d) tail.
Proof.
  induction fuel as [| fuel IH]; intros n rest.
  - exists (n mod 10), rest. split; [apply Z.mod_pos_bound; lia | reflexivity].
  - cbn [digits_of]. destruct (n <? 10).
    + exists (n mod 10), rest. split; [apply Z.mod_pos_bound; lia | reflexivity].
    + apply IH.
Qed.

Lemma log2_fuel (n : Z) : 0 <= n -> 0 <= n < 2 ^ Z.of_nat (S (Z.to_nat (Z.log2 n))).
Proof.
  intros Hn. split; [exact Hn |].
  rewrite Nat2Z.inj_succ, Z2Nat.id by apply Z.log2_nonneg.
  destruct (Z.eq_dec n 0) as [-> | Hne]; [reflexivity |].
  apply Z.log2_spec. lia.
Qed.

Lemma parse_unsigned (n : Z) :
  0 <= n -> parse (digits_of (Z.to_nat (Z.log2 n)) n "") = Some n.
Proof.
  intros Hn.
  destruct (parse_digits_of _ n "" (log2_fuel n Hn)) as (k & _ & Hparse).
  specialize (Hparse false 0). cbn [parse_digits] in Hparse.
  replace (0 * 10 ^ k + n) with n in Hparse by lia.
  destruct (digits_of_head (Z.to_nat (Z.log2 n)) n "") as (d & tail & Hd & Hhead).
  destruct (digit_char_plain d Hd) as (Hsp & Hminus & Hplus).
  unfold parse. rewrite Hhead in *. cbn [lstrip]. rewrite Hsp.
  destruct (digit_char d) as [[] [] [] [] [] [] [] []]; try exact Hparse; congruence.
Qed.

(** [int(str(z)) == z]. *)
Lemma parse_str (z : Z) : parse (str z) = Some z.
Proof.
  unfold str. destruct (Z.ltb_spec z 0) as [Hneg | Hpos].
  - destruct (parse_digits_of _ (- z) "" (log2_fuel (- z) ltac:(lia)))
      as (k & _ & Hparse).
    unfold parse. cbn [lstrip]. change (is_space "-") with false. cbn iota.
    rewrite Hparse. cbn [parse_digits]. cbn. f_equal. lia.
  - apply parse_unsigned, Hpos.
Qed.

Example str_examples :
  PyInt.str 100 = "100" /\ PyInt.str (-7) = "-7" /\ PyInt.str 0 = "0".
Proof. repeat split; reflexivity. Qed.

Example parse_examples :
  PyInt.parse " +1_000 " = Some 1000 /\
  PyInt.parse "-007" = Some (-7) /\
  PyInt.parse "1__0" = None /\
  PyInt.parse "- 5" = None /\
  PyInt.parse "12a" = None.
Proof. repeat split; reflexivity. Qed.

End PyIntText.

(** ** Generators and sums *)

Section Generators.

Context {A B C : Type}.

Lemma for_each_map (f : B -> result C) (g : A -> B) (h : A -> C) (l : list A) :
  Forall (fun x => f (g x) = Ok (h x)) l ->
  for_each f (map g l) = Ok (map h l).
Proof.
  induction 1 as [| x l Hx _ IH]; [reflexivity |].
  cbn [map for_each]. rewrite Hx, IH. reflexivity.
Qed.

Lemma for_each_total (f : B -> result C) (h : B -> C) (l : list B) (ys : list C) :
  (forall x y, f x = Ok y -> y = h x) ->
  for_each f l = Ok ys -> ys = map h l.
Proof.
  intros Hf. revert ys. induction l as [| x l IH]; intros ys Hys.
  - cbn in Hys. injection Hys as <-. reflexivity.
  - cbn [for_each] in Hys. destruct (f x) as [y |] eqn:Hx; [| discriminate].
    destruct (for_each f l) as [ys' |]; [| discriminate].
    injection Hys as <-. cbn [map]. f_equal; [apply Hf, Hx | apply IH; reflexivity].
Qed.

End Generators.

Lemma sum_int_from (l : list Z) (a : Z) : fold_left Z.add l a = a + sum_int l.
Proof.
  unfold sum_int. revert a. induction l as [| x l IH]; intros a; cbn [fold_left].
  - lia.
  - rewrite (IH (a + x)), (IH (0 + x)). lia.
Qed.

Lemma sum_int_cons (x : Z) (l : list Z) : sum_int (x :: l) = x + sum_int l.
Proof. unfold sum_int at 1. cbn [fold_left]. apply sum_int_from. Qed.

Lemma sum_int_ones {T : Type} (l : list T) :
  sum_int (map (fun _ => 1) l) = Z.of_nat (length l).
Proof.
  induction l as [| x l IH]; [reflexivity |].
  cbn [map length]. rewrite sum_int_cons, IH. lia.
Qed.

(** ** The store under the recorder *)

Section Store.

Context `{Schemas} `{FloatText}.

Lemma header_record : Csv.writerow (map Csv.PStr headers) [] = [headers].
Proof. reflexivity. Qed.

Lemma init_csv_missing (self : ResearchLogger) (fs : filesystem) :
  fs !! log_path self = None ->
  _init_csv self fs = <[log_path self := [headers]]> fs.
Proof. intros Hnone. unfold _init_csv. rewrite Hnone. reflexivity. Qed.

Lemma init_csv_present (self : ResearchLogger) (fs : filesystem) (f : Csv.file) :
  fs !! log_path self = Some f -> _init_csv self fs = fs.
Proof. intros Hsome. unfold _init_csv. rewrite Hsome. reflexivity. Qed.

Lemma log_decision_lookup (self : ResearchLogger) (d : CreditDecision.t) (k : Z)
    (fs : filesystem) :
  log_decision self d k fs !! log_path self
  = Some (default [] (fs !! log_path self) ++ [csv_row (d, k)])%list.
Proof. unfold log_decision. rewrite lookup_insert_eq. reflexivity. Qed.

Lemma log_decision_other (self : ResearchLogger) (d : CreditDecision.t) (k : Z)
    (fs : filesystem) (p : string) :
  p <> log_path self -> log_decision self d k fs !! p = fs !! p.
Proof. intros Hp. unfold log_decision. rewrite lookup_insert_ne by congruence. reflexivity. Qed.

Lemma log_all_lookup (self : ResearchLogger) (calls : list (CreditDecision.t * Z)) :
  forall (fs : filesystem) (f : Csv.file),
    fs !! log_path self = Some f ->
    log_all self calls fs !! log_path self = Some (f ++ map csv_row calls)%list.
Proof.
  induction calls as [| [d k] calls IH]; intros fs f Hf.
  - cbn. rewrite app_nil_r. exact Hf.
  - cbn [log_all fold_left map fst snd].
    change (fold_left _ calls ?fs') with (log_all self calls fs').
    erewrite IH by apply log_decision_lookup.
    rewrite Hf. cbn [default]. rewrite <- app_assoc. reflexivity.
Qed.

Lemma log_all_other (self : ResearchLogger) (calls : list (CreditDecision.t * Z))
    (p : string) :
  p <> log_path self ->
  forall fs : filesystem, log_all self calls fs !! p = fs !! p.
Proof.
  intros Hp. induction calls as [| [d k] calls IH]; intros fs; [reflexivity |].
  cbn [log_all fold_left fst snd].
  change (fold_left _ calls ?fs') with (log_all self calls fs').
  rewrite IH. apply log_decision_other, Hp.
Qed.

Lemma csv_row_length (c : CreditDecision.t * Z) : length (csv_row c) = 15%nat.
Proof. reflexivity. Qed.

Lemma no_blank_record (calls : list (CreditDecision.t * Z)) :
  filter (fun r : Csv.record => r <> []) (map csv_row calls) = map csv_row calls.
Proof.
  induction calls as [| c calls IH]; [reflexivity |].
  cbn [map]. rewrite filter_cons_True by discriminate. f_equal. exact IH.
Qed.

(** The reader gives one row per record of the recorder, in file order. *)
Lemma reader_recorded (calls : list (CreditDecision.t * Z)) :
  Csv.DictReader (headers :: map csv_row calls)
  = map (fun c => Csv.make_row headers (csv_row c)) calls.
Proof.
  unfold Csv.DictReader. rewrite no_blank_record. apply map_map.
Qed.

End Store.

(** ** Floats: integers below [2^53] convert and divide without overflow *)

Section FloatRange.

Import PyFloat.

Lemma digits2_size (p : positive) : digits2_pos p = Pos.size p.
Proof. induction p as [p IH | p IH |]; cbn; congruence. Qed.

Lemma Zdigits2_log2 (m : Z) : 0 < m -> Zdigits2 m = Z.succ (Z.log2 m).
Proof.
  destruct m as [| p | p]; try lia. intros _.
  cbn [Zdigits2]. rewrite digits2_size.
  destruct p as [p | p |]; cbn [Pos.size Z.log2]; lia.
Qed.

Lemma Zdigits2_nonneg (m : Z) : 0 <= Zdigits2 m.
Proof. destruct m; cbn [Zdigits2]; lia. Qed.

Lemma Zdigits2_mono (a b : Z) : 0 <= a <= b -> Zdigits2 a <= Zdigits2 b.
Proof.
  intros [Ha Hab]. destruct (Z.eq_dec a 0) as [-> | Hne].
  - apply Zdigits2_nonneg.
  - rewrite !Zdigits2_log2 by lia.
    pose proof (Z.log2_le_mono a b Hab). lia.
Qed.

Lemma Zdigits2_succ (m : Z) : 0 <= m -> Zdigits2 (m + 1) <= Zdigits2 m + 1.
Proof.
  intros Hm. destruct (Z.eq_dec m 0) as [-> | Hne]; [discriminate |].
  rewrite !Zdigits2_log2 by lia.
  pose proof (Z.log2_succ_le m). unfold Z.succ in *. lia.
Qed.

Lemma Zdigits2_small (m : Z) (k : Z) : 0 <= k -> 0 <= m < 2 ^ k -> Zdigits2 m <= k.
Proof.
  intros Hk [Hm Hlt]. destruct (Z.eq_dec m 0) as [-> | Hne]; [cbn; lia |].
  rewrite Zdigits2_log2 by lia.
  assert (Z.log2 m < k) by (apply Z.log2_lt_pow2; lia). lia.
Qed.

Lemma Zdigits2_shift (m s : Z) : 0 < m -> 0 <= s -> Zdigits2 (m * 2 ^ s) = Zdigits2 m + s.
Proof.
  intros Hm Hs.
  assert (0 < 2 ^ s) by (apply Z.pow_pos_nonneg; lia).
  rewrite !Zdigits2_log2 by nia.
  rewrite Z.log2_mul_pow2 by lia. lia.
Qed.

Lemma iter_pos_invariant {A : Type} (P : A -> Prop) (f : A -> A) :
  (forall x, P x -> P (f x)) ->
  forall (n : positive) (x : A), P x -> P (SpecFloat.iter_pos f n x).
Proof.
  intros Hf. induction n as [n IH | n IH |]; intros x Hx; cbn [SpecFloat.iter_pos]; auto.
Qed.

Lemma shr_1_bound (M : Z) (r : shr_record) :
  0 <= shr_m r <= M -> 0 <= shr_m (shr_1 r) <= M.
Proof.
  destruct r as [m r s]. cbn [shr_m]. intros Hm.
  destruct m as [| [p | p |] | p]; cbn [shr_1 shr_m]; lia.
Qed.

(** Where [shr_fexp] leaves the mantissa and the exponent. *)
Lemma shr_fexp_bound (m e : Z) (l : location) (r : shr_record) (e' : Z) :
  0 <= m ->
  shr_fexp prec emax m e l = (r, e') ->
  0 <= shr_m r <= m /\ e' = Z.max e (fexp prec emax (Zdigits2 m + e)).
Proof.
  intros Hm. unfold shr_fexp, shr.
  assert (Hrec : shr_m (shr_record_of_loc m l) = m)
    by (destruct l as [| []]; reflexivity).
  destruct (fexp prec emax (Zdigits2 m + e) - e) as [| n | n] eqn:Hn;
    intros [= <- <-].
  - rewrite Hrec. lia.
  - split; [| lia].
    apply (iter_pos_invariant (fun r => 0 <= shr_m r <= m)).
    + intros x. apply shr_1_bound.
    + rewrite Hrec. lia.
  - rewrite Hrec. lia.
Qed.

Lemma round_nearest_even_bound (m : Z) (l : location) :
  m <= round_nearest_even m l <= m + 1.
Proof.
  destruct l as [| []]; cbn [round_nearest_even]; try lia.
  destruct (Z.even m); lia.
Qed.

(** Rounding a mantissa of at most 200 bits at a non-positive exponent
    stays far below the largest exponent. *)
Lemma round_aux_finite (s : bool) (m e : Z) (l : location) :
  0 <= m -> Zdigits2 m <= 200 -> e <= 0 ->
  is_infinite (binary_round_aux prec emax s m e l) = false.
Proof.
  intros Hm Hd He. unfold binary_round_aux.
  destruct (shr_fexp prec emax m e l) as [r1 e1] eqn:H1.
  destruct (shr_fexp_bound _ _ _ _ _ Hm H1) as [Hr1 He1].
  pose proof (round_nearest_even_bound (shr_m r1) (loc_of_shr_record r1)) as Hrnd.
  set (m1 := round_nearest_even (shr_m r1) (loc_of_shr_record r1)) in *.
  destruct (shr_fexp prec emax m1 e1 loc_Exact) as [r2 e2] eqn:H2.
  assert (Hm1 : 0 <= m1) by lia.
  destruct (shr_fexp_bound _ _ _ _ _ Hm1 H2) as [Hr2 He2].
  assert (Hd1 : Zdigits2 m1 <= 201).
  { pose proof (Zdigits2_mono m1 (shr_m r1 + 1) ltac:(lia)).
    pose proof (Zdigits2_succ (shr_m r1) ltac:(lia)).
    pose proof (Zdigits2_mono (shr_m r1) m ltac:(lia)). lia. }
  pose proof (Zdigits2_nonneg m). pose proof (Zdigits2_nonneg m1).
  assert (He2' : e2 <= emax - prec).
  { unfold fexp, emin, prec, emax in *. lia. }
  destruct (shr_m r2); [reflexivity | | reflexivity].
  apply Z.leb_le in He2'. rewrite He2'. reflexivity.
Qed.

Lemma div_core_bound (a b : positive) (q e : Z) (l : location) :
  Z.pos a < 2 ^ 53 -> Z.pos b < 2 ^ 53 ->
  SFdiv_core_binary prec emax (Z.pos a) 0 (Z.pos b) 0 = (q, e, l) ->
  0 <= q /\ Zdigits2 q <= 200 /\ e <= 0.
Proof.
  intros Ha Hb. unfold SFdiv_core_binary.
  pose proof (Zdigits2_small (Z.pos a) 53 ltac:(lia) ltac:(lia)) as Hda.
  pose proof (Zdigits2_small (Z.pos b) 53 ltac:(lia) ltac:(lia)) as Hdb.
  assert (Hda' : 1 <= Zdigits2 (Z.pos a)) by (cbn [Zdigits2]; lia).
  assert (Hdb' : 1 <= Zdigits2 (Z.pos b)) by (cbn [Zdigits2]; lia).
  set (e' := Z.min (fexp prec emax (Zdigits2 (Z.pos a) + 0 - (Zdigits2 (Z.pos b) + 0))) (0 - 0)).
  assert (He' : -105 <= e' <= 0) by (unfold e', fexp, emin, prec, emax; lia).
  set (m' := match 0 - 0 - e' with
             | Z.pos _ => Z.shiftl (Z.pos a) (0 - 0 - e')
             | 0 => Z.pos a
             | Z.neg _ => 0
             end).
  assert (Hm' : 0 <= m' /\ Zdigits2 m' <= 200).
  { unfold m'. destruct (0 - 0 - e') as [| n | n] eqn:Hs.
    - lia.
    - rewrite Z.shiftl_mul_pow2 by lia.
      rewrite Zdigits2_shift by lia.
      assert (0 < 2 ^ Z.pos n) by (apply Z.pow_pos_nonneg; lia). nia.
    - cbn [Zdigits2]. lia. }
  pose proof (Z.div_eucl_eq m' (Z.pos b) ltac:(lia)) as Heq.
  pose proof (Z.mod_pos_bound m' (Z.pos b) ltac:(lia)) as Hmod.
  unfold Z.modulo in Hmod.
  destruct (Z.div_eucl m' (Z.pos b)) as [q' r'].
  intros [= <- <- <-].
  assert (Hq : 0 <= q' <= m') by nia.
  pose proof (Zdigits2_mono q' m' Hq). lia.
Qed.

(** [a / b] does not overflow on integers that a float holds exactly. *)
Lemma int_truediv_small (a b : Z) :
  Z.abs a < 2 ^ 53 -> 0 < b < 2 ^ 53 ->
  exists q : float, int_truediv a b = Ok q.
Proof.
  intros Ha Hb. unfold int_truediv.
  destruct (Z.eqb_spec b 0) as [-> | _]; [lia |].
  assert (Hfin : is_infinite (div (exact a) (exact b)) = false).
  { destruct b as [| pb | pb]; try lia.
    destruct a as [| pa | pa]; [reflexivity | |];
      cbn [exact]; unfold div; cbn [SFdiv];
      destruct (SFdiv_core_binary prec emax (Z.pos pa) 0 (Z.pos pb) 0)
        as [[q e] l] eqn:Hcore;
      destruct (div_core_bound pa pb q e l ltac:(lia) ltac:(lia) Hcore)
        as (Hq & Hd & He);
      apply round_aux_finite; assumption. }
  rewrite Hfin. eauto.
Qed.

Lemma digits2_iter_xO (p k : positive) :
  digits2_pos (Pos.iter xO p k) = (digits2_pos p + k)%positive.
Proof.
  induction k as [| k IH] using Pos.peano_ind.
  - cbn. lia.
  - rewrite Pos.iter_succ. cbn [digits2_pos]. rewrite IH. lia.
Qed.

Lemma round_aux_aligned (s : bool) (m : positive) (e : Z) :
  Z.pos (digits2_pos m) = 53 -> -1074 <= e <= 971 ->
  binary_round_aux prec emax s (Z.pos m) e loc_Exact = S754_finite s m e.
Proof.
  intros Hd He.
  assert (Hshr : shr_fexp prec emax (Z.pos m) e loc_Exact
                 = ({| shr_m := Z.pos m; shr_r := false; shr_s := false |}, e)).
  { unfold shr_fexp. cbn [Zdigits2]. rewrite Hd.
    replace (fexp prec emax (53 + e) - e) with 0
      by (unfold fexp, emin, prec, emax; lia).
    reflexivity. }
  unfold binary_round_aux. rewrite Hshr.
  cbn [shr_m loc_of_shr_record shr_r shr_s round_nearest_even].
  rewrite Hshr. cbn [shr_m].
  replace (e <=? emax - prec) with true
    by (symmetry; apply Z.leb_le; unfold prec, emax; lia).
  reflexivity.
Qed.

(** A positive integer below [2^53] converts to a finite, non-zero float. *)
Lemma binary_round_small (s : bool) (p : positive) :
  Z.pos p < 2 ^ 53 ->
  exists (m : positive) (e : Z), binary_round prec emax s p 0 = S754_finite s m e.
Proof.
  intros Hp.
  pose proof (Zdigits2_small (Z.pos p) 53 ltac:(lia) ltac:(lia)) as Hd.
  cbn [Zdigits2] in Hd.
  unfold binary_round.
  replace (fexp prec emax (Z.pos (digits2_pos p) + 0))
    with (Z.pos (digits2_pos p) - 53)
    by (unfold fexp, emin, prec, emax; lia).
  unfold shl_align.
  destruct (Z.pos (digits2_pos p) - 53 - 0) as [| k | k] eqn:Hk; try lia.
  - exists p, 0. apply round_aux_aligned; lia.
  - exists (Pos.iter xO p k), (Z.pos (digits2_pos p) - 53).
    apply round_aux_aligned; [| lia].
    rewrite digits2_iter_xO. lia.
Qed.

Lemma of_int_small (z : Z) :
  Z.abs z < 2 ^ 53 -> exists f : float, of_int z = Ok f.
Proof.
  intros Hz. unfold of_int.
  destruct z as [| p | p]; cbn [binary_normalize].
  - cbn. eauto.
  - destruct (binary_round_small false p ltac:(lia)) as (m & e & ->). cbn. eauto.
  - destruct (binary_round_small true p ltac:(lia)) as (m & e & ->). cbn. eauto.
Qed.

Lemma of_int_positive (n : Z) :
  0 < n < 2 ^ 53 -> exists f : float, of_int n = Ok f /\ is_zero f = false.
Proof.
  intros Hn. unfold of_int.
  destruct n as [| p | p]; try lia. cbn [binary_normalize].
  destruct (binary_round_small false p ltac:(lia)) as (m & e & ->). cbn. eauto.
Qed.

Lemma truediv_int_small (x : float) (n : Z) :
  0 < n < 2 ^ 53 -> exists q : float, truediv_int x n = Ok q.
Proof.
  intros Hn. unfold truediv_int.
  destruct (of_int_positive n Hn) as (d & -> & ->). eauto.
Qed.

Lemma int_mul_small (z : Z) (y : float) :
  Z.abs z < 2 ^ 53 -> exists p : float, int_mul z y = Ok p.
Proof.
  intros Hz. unfold int_mul.
  destruct (of_int_small z Hz) as (f & ->). eauto.
Qed.

End FloatRange.

(** ** Floats: a positive integer never converts to zero *)

Section FloatNonZero.

Import PyFloat.

Lemma Zdigits2_pos_iff (m : Z) : 0 <= m -> (0 < Zdigits2 m <-> 0 < m).
Proof. destruct m; cbn [Zdigits2]; lia. Qed.

Lemma shr_1_digits (r : shr_record) :
  0 <= shr_m r ->
  0 <= shr_m (shr_1 r) /\
  Zdigits2 (shr_m (shr_1 r)) = Z.max 0 (Zdigits2 (shr_m r) - 1).
Proof.
  destruct r as [m r s]. cbn [shr_m]. intros Hm.
  destruct m as [| [p | p |] | p]; cbn [shr_1 shr_m Zdigits2 digits2_pos]; lia.
Qed.

Lemma iter_shr_digits (n : positive) :
  forall r : shr_record,
    0 <= shr_m r ->
    0 <= shr_m (SpecFloat.iter_pos shr_1 n r) /\
    Zdigits2 (shr_m (SpecFloat.iter_pos shr_1 n r))
      = Z.max 0 (Zdigits2 (shr_m r) - Z.pos n).
Proof.
  induction n as [n IH | n IH |]; intros r Hr; cbn [SpecFloat.iter_pos].
  - destruct (shr_1_digits r Hr) as [H1 D1].
    destruct (IH _ H1) as [H2 D2]. destruct (IH _ H2) as [H3 D3].
    split; [exact H3 |]. rewrite D3, D2, D1. lia.
  - destruct (IH _ Hr) as [H2 D2]. destruct (IH _ H2) as [H3 D3].
    split; [exact H3 |]. rewrite D3, D2. lia.
  - apply shr_1_digits, Hr.
Qed.

Lemma shr_fexp_positive (m e : Z) (l : location) (r : shr_record) (e' : Z) :
  0 < m -> -1074 <= e ->
  shr_fexp prec emax m e l = (r, e') ->
  0 < shr_m r /\ -1074 <= e'.
Proof.
  intros Hm He. unfold shr_fexp, shr.
  assert (Hrec : shr_m (shr_record_of_loc m l) = m)
    by (destruct l as [| []]; reflexivity).
  destruct (fexp prec emax (Zdigits2 m + e) - e) as [| n | n] eqn:Hn;
    intros [= <- <-].
  - rewrite Hrec. lia.
  - destruct (iter_shr_digits n (shr_record_of_loc m l)) as [Hnonneg Hdigits];
      [rewrite Hrec; lia |].
    rewrite Hrec in Hdigits. split; [| lia].
    apply Zdigits2_pos_iff; [exact Hnonneg |].
    unfold fexp, emin, prec, emax in Hn. lia.
  - rewrite Hrec. lia.
Qed.

Lemma round_aux_nonzero (s : bool) (m e : Z) (l : location) :
  0 < m -> -1074 <= e -> is_zero (binary_round_aux prec emax s m e l) = false.
Proof.
  intros Hm He. unfold binary_round_aux.
  destruct (shr_fexp prec emax m e l) as [r1 e1] eqn:H1.
  destruct (shr_fexp_positive _ _ _ _ _ Hm He H1) as [Hr1 He1].
  pose proof (round_nearest_even_bound (shr_m r1) (loc_of_shr_record r1)) as Hrnd.
  set (m1 := round_nearest_even (shr_m r1) (loc_of_shr_record r1)) in *.
  assert (Hm1 : 0 < m1) by lia.
  destruct (shr_fexp prec emax m1 e1 loc_Exact) as [r2 e2] eqn:H2.
  destruct (shr_fexp_positive _ _ _ _ _ Hm1 He1 H2) as [Hr2 _].
  destruct (shr_m r2); try lia.
  destruct (e2 <=? emax - prec); reflexivity.
Qed.

(** [float(n)] of a positive integer is never zero. *)
Lemma of_int_nonzero (n : Z) (d : float) :
  0 < n -> of_int n = Ok d -> is_zero d = false.
Proof.
  intros Hn. unfold of_int.
  destruct n as [| p | p]; try lia. cbn [binary_normalize].
  assert (Hnz : is_zero (binary_round prec emax false p 0) = false).
  { unfold binary_round.
    assert (Hexp : -1074 <= fexp prec emax (Z.pos (digits2_pos p) + 0))
      by (unfold fexp, emin, prec, emax; lia).
    unfold shl_align.
    destruct (fexp prec emax (Z.pos (digits2_pos p) + 0) - 0);
      apply round_aux_nonzero; lia. }
  destruct (is_infinite _); [discriminate |].
  intros [= <-]. exact Hnz.
Qed.

Example truediv_examples :
  int_truediv 2 1 = Ok (S754_finite false 4503599627370496 (-51)) /\
  int_truediv 1 3 = Ok (S754_finite false 6004799503160661 (-54)) /\
  int_truediv 0 (-5) = Ok (S754_zero true) /\
  int_truediv 1 0 = Raise ZeroDivisionError /\
  int_truediv (2 ^ 1024) 1 = Raise OverflowError.
Proof. repeat split; vm_compute; reflexivity. Qed.

Example mock_price_example :
  mock_price = S754_finite false 7555786372591432 (-76) /\
  int_mul 100 mock_price = Ok (S754_finite false 5902958103587056 (-69)).
Proof. split; vm_compute; reflexivity. Qed.

End FloatNonZero.

(** ** The aggregator on a store that the recorder wrote *)

Section Aggregator.

Context `{Schemas} `{FloatText}.

Implicit Types (c : CreditDecision.t * Z) (calls : list (CreditDecision.t * Z)).

Abbreviation read c := (Csv.make_row headers (csv_row c)).

Lemma bool_cell (b : bool) :
  bool_decide (Some (Csv.cell (Csv.PBool b)) = Some "True") = b.
Proof. destruct b; reflexivity. Qed.

Lemma count_map {T : Type} (p : T -> bool) (l : list T) :
  sum_int (map (fun _ : bool => 1) (filter (fun b : bool => b = true) (map p l)))
  = count p l.
Proof.
  rewrite sum_int_ones. unfold count. f_equal.
  induction l as [| x l IH]; [reflexivity |].
  cbn [map]. destruct (p x) eqn:Hp.
  - rewrite !filter_cons_True by done. cbn [length]. congruence.
  - rewrite !filter_cons_False by (rewrite ?Hp; discriminate). exact IH.
Qed.

Lemma count_bound {T : Type} (p : T -> bool) (l : list T) :
  0 <= count p l <= Z.of_nat (length l).
Proof. unfold count. pose proof (length_filter (fun x => p x = true) l). lia. Qed.

Lemma tokens_recorded calls :
  for_each (fun r => getitem r "total_tokens" ≫= py_int) (map (fun c => read c) calls)
  = Ok (map (fun c => CreditDecision.total_tokens (fst c)) calls).
Proof.
  apply for_each_map, Forall_forall. intros c _.
  change (getitem (read c) "total_tokens")
    with (Ok (A := option string) (Some (PyInt.str (CreditDecision.total_tokens (fst c))))).
  cbn. rewrite parse_str. reflexivity.
Qed.

Lemma switches_recorded calls :
  for_each (fun r => getitem r "key_switches" ≫= py_int) (map (fun c => read c) calls)
  = Ok (map snd calls).
Proof.
  apply for_each_map, Forall_forall. intros c _.
  change (getitem (read c) "key_switches")
    with (Ok (A := option string) (Some (PyInt.str (snd c)))).
  cbn. rewrite parse_str. reflexivity.
Qed.

Lemma latencies_recorded calls :
  Forall latency_readable calls ->
  for_each (fun r => getitem r "latency_ms" ≫= py_float) (map (fun c => read c) calls)
  = Ok (map (fun c => CreditDecision.processing_time_ms (fst c)) calls).
Proof.
  intros Hlat. apply for_each_map. eapply Forall_impl; [exact Hlat |].
  intros c Hc. unfold latency_readable in Hc.
  change (getitem (read c) "latency_ms")
    with (Ok (A := option string)
             (Some (float_str (CreditDecision.processing_time_ms (fst c))))).
  cbn. rewrite Hc. reflexivity.
Qed.

Lemma triggers_recorded calls :
  count_true "is_fairness_triggered" (map (fun c => read c) calls)
  = Ok (count triggered calls).
Proof.
  unfold count_true.
  rewrite (for_each_map _ _ triggered).
  - cbn. rewrite count_map. reflexivity.
  - apply Forall_forall. intros c _.
    change (getitem (read c) "is_fairness_triggered")
      with (Ok (A := option string) (Some (Csv.cell (Csv.PBool (triggered c))))).
    cbn [mbind result_mbind result_bind mret result_ret]. rewrite bool_cell. reflexivity.
Qed.

Lemma changes_recorded calls :
  count_true "fairness_decision_changed" (map (fun c => read c) calls)
  = Ok (count changed calls).
Proof.
  unfold count_true.
  rewrite (for_each_map _ _ changed).
  - cbn. rewrite count_map. reflexivity.
  - apply Forall_forall. intros c _.
    change (getitem (read c) "fairness_decision_changed")
      with (Ok (A := option string) (Some (Csv.cell (Csv.PBool (changed c))))).
    cbn [mbind result_mbind result_bind mret result_ret]. rewrite bool_cell. reflexivity.
Qed.

Lemma routing_recorded calls :
  forall dist : gmap (option string) Z,
    exists dist', routing_loop (map (fun c => read c) calls) dist = Ok dist'.
Proof.
  induction calls as [| c calls IH]; intros dist; [cbn; eauto |].
  cbn [map routing_loop].
  change (getitem (read c) "routing_strategy")
    with (Ok (A := option string)
             (Some (value (CreditDecision.routing_strategy_used (fst c))))).
  cbn. apply IH.
Qed.

Ltac bind_ok := cbn [mbind result_mbind fmap result_fmap result_bind mret result_ret].

(** The statistics of a store that holds the header and the rows of
    [calls], and nothing else. *)
Lemma summary_recorded (self : ResearchLogger) (fs : filesystem) calls :
  fs !! log_path self = Some (headers :: map csv_row calls) ->
  calls <> [] ->
  Forall latency_readable calls ->
  counts_in_range calls ->
  exists st : Stats,
    get_summary_stats self fs = Ok (Statistics st) /\
    total_evaluations st = Z.of_nat (length calls) /\
    total (token_usage st)
      = sum_int (map (fun c => CreditDecision.total_tokens (fst c)) calls) /\
    triggers (fairness_metrics st) = count triggered calls /\
    decision_changes (fairness_metrics st) = count changed calls /\
    (count triggered calls = 0 -> change_rate (fairness_metrics st) = NInt 0) /\
    (0 < count triggered calls ->
       exists q, PyFloat.int_truediv (count changed calls) (count triggered calls) = Ok q /\
                 change_rate (fairness_metrics st) = NFloat q) /\
    total_key_switches (resilience st) = sum_int (map snd calls) /\
    PyFloat.int_truediv (sum_int (map snd calls)) (Z.of_nat (length calls))
      = Ok (switch_rate (resilience st)).
Proof.
  intros Hfs Hne Hlat (HN & Htok & Hsw).
  assert (Hpos : 0 < Z.of_nat (length calls)) by (destruct calls; [congruence | cbn; lia]).
  unfold get_summary_stats. rewrite Hfs. cbv zeta. rewrite reader_recorded.
  destruct (map (fun c => read c) calls) as [| r rs] eqn:Hrows.
  { destruct calls; [congruence | discriminate]. }
  cbv iota. rewrite <- Hrows. clear r rs Hrows.
  rewrite length_map, tokens_recorded. bind_ok.
  destruct (int_truediv_small _ _ Htok (conj Hpos HN)) as [avg ->]. bind_ok.
  rewrite (latencies_recorded _ Hlat). bind_ok.
  destruct (truediv_int_small
              (float_sum (map (fun c => CreditDecision.processing_time_ms (fst c)) calls))
              _ (conj Hpos HN)) as [lat ->]. bind_ok.
  destruct (routing_recorded calls ∅) as [dist ->]. bind_ok.
  rewrite triggers_recorded, changes_recorded, switches_recorded. bind_ok.
  destruct (int_mul_small _ mock_price Htok) as [cost ->]. bind_ok.
  destruct (int_truediv_small _ _ Hsw (conj Hpos HN)) as [rate Hrate].
  pose proof (count_bound triggered calls) as Htr.
  pose proof (count_bound changed calls) as Hch.
  destruct (Z.ltb_spec 0 (count triggered calls)) as [Hgt | Hle].
  - destruct (int_truediv_small (count changed calls) (count triggered calls)
                ltac:(lia) ltac:(lia)) as [q Hq].
    rewrite Hq. bind_ok. rewrite Hrate. bind_ok.
    eexists. split; [reflexivity |]. cbn.
    repeat split; try reflexivity; try lia. intros _. eauto.
  - bind_ok. rewrite Hrate. bind_ok.
    eexists. split; [reflexivity |]. cbn.
    repeat split; try reflexivity; try lia.
Qed.

End Aggregator.

(** ** The recorder *)

Section Recorder.

Context `{Schemas} `{FloatText}.

Implicit Types (d : CreditDecision.t) (k : Z) (self : ResearchLogger) (fs : filesystem).

(** C2: the row that [log_decision] appends carries, under
    [prompt_tokens], the sum of [tokens_used] over [llm_results] (0 for an
    empty sequence) and, under [completion_tokens], [total_tokens] minus
    that sum; both read back as these integers. *)
Theorem token_arithmetic self d k fs :
  let prompt := sum_int (map tokens_used (CreditDecision.llm_results d)) in
  log_decision self d k fs !! log_path self
    = Some (default [] (fs !! log_path self) ++ [csv_row (d, k)])%list /\
  ResearchLog.prompt_tokens (log_entry d k) = prompt /\
  ResearchLog.completion_tokens (log_entry d k)
    = CreditDecision.total_tokens d - ResearchLog.prompt_tokens (log_entry d k) /\
  (getitem (Csv.make_row headers (csv_row (d, k))) "prompt_tokens" ≫= py_int)
    = Ok prompt /\
  (getitem (Csv.make_row headers (csv_row (d, k))) "completion_tokens" ≫= py_int)
    = Ok (CreditDecision.total_tokens d - prompt) /\
  (CreditDecision.llm_results d = [] -> prompt = 0).
Proof.
  intros prompt.
  assert (Hprompt : ResearchLog.prompt_tokens (log_entry d k) = prompt).
  { unfold prompt. cbn. destruct (CreditDecision.llm_results d); reflexivity. }
  split; [apply log_decision_lookup |].
  split; [exact Hprompt |].
  split; [reflexivity |].
  split; [| split].
  - change (getitem (Csv.make_row headers (csv_row (d, k))) "prompt_tokens")
      with (Ok (A := option string)
               (Some (PyInt.str (ResearchLog.prompt_tokens (log_entry d k))))).
    cbn [mbind result_mbind result_bind py_int].
    rewrite parse_str, Hprompt. reflexivity.
  - change (getitem (Csv.make_row headers (csv_row (d, k))) "completion_tokens")
      with (Ok (A := option string)
               (Some (PyInt.str (CreditDecision.total_tokens d
                                 - ResearchLog.prompt_tokens (log_entry d k))))).
    cbn [mbind result_mbind result_bind py_int].
    rewrite parse_str, Hprompt. reflexivity.
  - intros Hnil. unfold prompt. rewrite Hnil. reflexivity.
Qed.

(** C7: in the row that [log_decision] appends, the columns
    [ml_confidence_score] and [ml_prediction] are the empty text when the
    decision has no [ml_prediction], never the text of a number; when it
    has one, they are the texts of its [confidence_score] and of its
    [default_probability]. *)
Theorem optional_ml_columns self d k fs :
  let row := Csv.make_row headers (csv_row (d, k)) in
  log_decision self d k fs !! log_path self
    = Some (default [] (fs !! log_path self) ++ [csv_row (d, k)])%list /\
  row !! "ml_confidence_score"
    = Some (Some match CreditDecision.ml_prediction d with
                 | Some ml => float_str (confidence_score ml)
                 | None => ""
                 end) /\
  row !! "ml_prediction"
    = Some (Some match CreditDecision.ml_prediction d with
                 | Some ml => float_str (default_probability ml)
                 | None => ""
                 end) /\
  PyInt.parse "" = None /\
  (forall z : Z, PyInt.str z <> "").
Proof.
  intros row. split; [apply log_decision_lookup |].
  split; [| split; [| split]].
  - unfold row. destruct (CreditDecision.ml_prediction d) eqn:Hml;
      unfold csv_row, log_entry; cbn [fst snd]; rewrite Hml; reflexivity.
  - unfold row. destruct (CreditDecision.ml_prediction d) eqn:Hml;
      unfold csv_row, log_entry; cbn [fst snd]; rewrite Hml; reflexivity.
  - reflexivity.
  - intros z Hz. pose proof (parse_str z) as Hparse.
    rewrite Hz in Hparse. discriminate.
Qed.

(** C8: in the row that [log_decision] appends, the column
    [active_key_id] is [key_used] when [llm_results] is not empty and
    [ml_only] when it is empty, and never anything else. *)
Theorem key_id_placeholder self d k fs :
  exists id : string,
    log_decision self d k fs !! log_path self
      = Some (default [] (fs !! log_path self) ++ [csv_row (d, k)])%list /\
    Csv.make_row headers (csv_row (d, k)) !! "active_key_id" = Some (Some id) /\
    csv_row (d, k) !! 9%nat = Some id /\
    (CreditDecision.llm_results d <> [] -> id = "key_used") /\
    (CreditDecision.llm_results d = [] -> id = "ml_only") /\
    (id = "key_used" \/ id = "ml_only").
Proof.
  exists (_extract_key_id d).
  split; [apply log_decision_lookup |].
  split; [reflexivity |]. split; [reflexivity |].
  unfold _extract_key_id.
  destruct (CreditDecision.llm_results d); repeat split; auto; congruence.
Qed.

(** C3: on an initialized store, a run of [log_decision] calls leaves
    every record that was there in place and unchanged, and adds one
    record per call after them, in call order; on a fresh path the store is
    then the header followed by exactly as many data rows as calls, which
    the reader returns in call order. *)
Theorem append_only self fs (calls : list (CreditDecision.t * Z)) :
  exists old : Csv.file,
    _init_csv self fs !! log_path self = Some old /\
    log_all self calls (_init_csv self fs) !! log_path self
      = Some (old ++ map csv_row calls)%list /\
    length (map csv_row calls) = length calls /\
    (forall (i : nat) (c : CreditDecision.t * Z),
       calls !! i = Some c ->
       (old ++ map csv_row calls)%list !! (length old + i)%nat = Some (csv_row c)) /\
    (forall (before after : list (CreditDecision.t * Z)),
       calls = (before ++ after)%list ->
       exists mid : Csv.file,
         log_all self before (_init_csv self fs) !! log_path self = Some mid /\
         log_all self calls (_init_csv self fs) !! log_path self
           = Some (mid ++ map csv_row after)%list) /\
    (fs !! log_path self = None ->
       old = [headers] /\
       Csv.DictReader (old ++ map csv_row calls)%list
         = map (fun c => Csv.make_row headers (csv_row c)) calls /\
       length (Csv.DictReader (old ++ map csv_row calls)%list) = length calls).
Proof.
  assert (Hold : exists old, _init_csv self fs !! log_path self = Some old).
  { unfold _init_csv. destruct (fs !! log_path self) as [f |] eqn:Hf.
    - eauto.
    - rewrite lookup_insert_eq. eauto. }
  destruct Hold as [old Hold]. exists old.
  split; [exact Hold |].
  split; [apply log_all_lookup, Hold |].
  split; [apply length_map |].
  split; [| split].
  - intros i c Hc. rewrite lookup_app_r by lia.
    replace (length old + i - length old)%nat with i by lia.
    rewrite list_lookup_fmap, Hc. reflexivity.
  - intros before after ->. exists (old ++ map csv_row before)%list.
    split; [apply log_all_lookup, Hold |].
    rewrite (log_all_lookup _ _ _ _ Hold), map_app, app_assoc. reflexivity.
  - intros Hfresh. rewrite (init_csv_missing _ _ Hfresh), lookup_insert_eq in Hold.
    injection Hold as <-.
    split; [reflexivity |].
    change ([headers] ++ map csv_row calls)%list with (headers :: map csv_row calls).
    rewrite reader_recorded, length_map. split; reflexivity.
Qed.

(** C6: [_init_csv] on a path that exists changes nothing, whatever the
    file under it holds; run twice from a file system without the path, it
    leaves exactly the header record of the fifteen field names under the
    path, and the reader finds no data row. *)
Theorem init_idempotent self fs (f : Csv.file) :
  _init_csv self (<[log_path self := f]> fs) = <[log_path self := f]> fs /\
  _init_csv self (_init_csv self fs) = _init_csv self fs /\
  _init_csv self (_init_csv self (delete (log_path self) fs))
    = <[log_path self := [headers]]> (delete (log_path self) fs) /\
  snd (__init__ (log_path self)
         (snd (__init__ (log_path self) (delete (log_path self) fs))))
    !! log_path self = Some [headers] /\
  length headers = 15%nat /\
  NoDup headers /\
  Csv.DictReader [headers] = [].
Proof.
  assert (Hdel : delete (log_path self) fs !! log_path self = None)
    by apply lookup_delete_eq.
  assert (Htwice : _init_csv self (_init_csv self (delete (log_path self) fs))
                   = <[log_path self := [headers]]> (delete (log_path self) fs)).
  { rewrite (init_csv_missing _ _ Hdel).
    apply (init_csv_present _ _ [headers]), lookup_insert_eq. }
  split; [apply (init_csv_present _ _ f), lookup_insert_eq |].
  split.
  { destruct (fs !! log_path self) as [g |] eqn:Hg.
    - rewrite (init_csv_present _ _ g Hg). apply (init_csv_present _ _ g Hg).
    - rewrite (init_csv_missing _ _ Hg).
      apply (init_csv_present _ _ [headers]), lookup_insert_eq. }
  split; [exact Htwice |].
  split.
  { unfold __init__. cbn [snd log_path]. destruct self as [p]. cbn [log_path] in *.
    rewrite Htwice. apply lookup_insert_eq. }
  split; [reflexivity |].
  split; [| reflexivity].
  refine (bool_decide_unpack (NoDup headers) _). vm_compute. exact I.
Qed.

End Recorder.

(** ** The aggregator: counting and guarding *)

Section AggregatorLemmas.

Context `{Schemas} `{FloatText}.

Implicit Types (self : ResearchLogger) (fs : filesystem).
Implicit Types (c : CreditDecision.t * Z) (calls : list (CreditDecision.t * Z)).

Lemma bind_inv {A B : Type} (k : A -> result B) (r : result A) (y : B) :
  r ≫= k = Ok y -> exists x : A, r = Ok x /\ k x = Ok y.
Proof. destruct r as [x |]; [eauto | discriminate]. Qed.

Lemma marked_cell (b : bool) :
  bool_decide (Some (Some (Csv.cell (Csv.PBool b))) = Some (Some "True")) = b.
Proof. destruct b; reflexivity. Qed.

Lemma count_fmap {T U : Type} (p : U -> bool) (q : T -> bool) (g : T -> U) (l : list T) :
  (forall x, p (g x) = q x) -> count p (map g l) = count q l.
Proof.
  intros Hpq. unfold count. f_equal.
  induction l as [| x l IH]; [reflexivity |].
  cbn [map]. destruct (q x) eqn:Hq.
  - rewrite !filter_cons_True by (rewrite ?Hpq; assumption). cbn [length]. congruence.
  - rewrite !filter_cons_False by (rewrite ?Hpq, ?Hq; discriminate). exact IH.
Qed.

Lemma triggered_rows calls :
  rows_marked "is_fairness_triggered" (Csv.DictReader (headers :: map csv_row calls))
  = count triggered calls.
Proof.
  rewrite reader_recorded. apply count_fmap. intros c. apply marked_cell.
Qed.

Lemma changed_rows calls :
  rows_marked "fairness_decision_changed" (Csv.DictReader (headers :: map csv_row calls))
  = count changed calls.
Proof.
  rewrite reader_recorded. apply count_fmap. intros c. apply marked_cell.
Qed.

Lemma count_true_marked (k : string) (rows : list Csv.dictrow) (n : Z) :
  count_true k rows = Ok n -> n = rows_marked k rows.
Proof.
  unfold count_true. intros Hn.
  apply bind_inv in Hn as (flags & Hflags & Hn).
  injection Hn as <-.
  apply (for_each_total _ (fun r => bool_decide (r !! k = Some (Some "True")))) in Hflags.
  - subst flags. apply count_map.
  - intros r y. unfold getitem. destruct (r !! k) as [v |]; [| discriminate].
    intros [= <-]. apply bool_decide_ext. split; congruence.
Qed.

(** Whatever the store holds, statistics that are returned count the
    marked rows of the reader, column by column. *)
Lemma summary_counts self fs (st : Stats) :
  get_summary_stats self fs = Ok (Statistics st) ->
  exists f : Csv.file,
    fs !! log_path self = Some f /\
    total_evaluations st = Z.of_nat (length (Csv.DictReader f)) /\
    triggers (fairness_metrics st)
      = rows_marked "is_fairness_triggered" (Csv.DictReader f) /\
    decision_changes (fairness_metrics st)
      = rows_marked "fairness_decision_changed" (Csv.DictReader f).
Proof.
  unfold get_summary_stats. destruct (fs !! log_path self) as [f |]; [| discriminate].
  cbv zeta. destruct (Csv.DictReader f) as [| r rs] eqn:Hrows; [discriminate |].
  rewrite <- Hrows. clear r rs Hrows. intros Hst.
  apply bind_inv in Hst as (tokens & _ & Hst).
  apply bind_inv in Hst as (avg & _ & Hst).
  apply bind_inv in Hst as (lats & _ & Hst).
  apply bind_inv in Hst as (lat & _ & Hst).
  apply bind_inv in Hst as (dist & _ & Hst).
  apply bind_inv in Hst as (tr & Htr & Hst).
  apply bind_inv in Hst as (ch & Hch & Hst).
  apply bind_inv in Hst as (sw & _ & Hst).
  apply bind_inv in Hst as (cost & _ & Hst).
  apply bind_inv in Hst as (rate & _ & Hst).
  apply bind_inv in Hst as (srate & _ & Hst).
  injection Hst as <-. exists f. cbn.
  split; [reflexivity |]. split; [reflexivity |].
  split; [apply count_true_marked, Htr | apply count_true_marked, Hch].
Qed.

Lemma count_singleton {T : Type} (p : T -> bool) (x : T) :
  count p [x] = if p x then 1 else 0.
Proof.
  unfold count. destruct (p x) eqn:Hp.
  - rewrite filter_cons_True by assumption. reflexivity.
  - rewrite filter_cons_False by (rewrite Hp; discriminate). reflexivity.
Qed.

(** No division by zero, whatever the store holds. *)

Lemma nzd_raise {A B : Type} (e : exn) :
  no_zero_division (Raise (A := A) e) -> no_zero_division (Raise (A := B) e).
Proof. unfold no_zero_division. intros He [= ->]. apply He. reflexivity. Qed.

Lemma nzd_bind {A B : Type} (k : A -> result B) (r : result A) :
  no_zero_division r ->
  (forall x, r = Ok x -> no_zero_division (k x)) ->
  no_zero_division (r ≫= k).
Proof.
  unfold no_zero_division. destruct r as [x | e]; cbn; intros Hr Hk.
  - apply Hk. reflexivity.
  - exact (nzd_raise e Hr).
Qed.

Lemma nzd_for_each {A B : Type} (f : A -> result B) (l : list A) :
  (forall x, no_zero_division (f x)) -> no_zero_division (for_each f l).
Proof.
  unfold no_zero_division. intros Hf.
  induction l as [| x l IH]; cbn [for_each]; [discriminate |].
  specialize (Hf x). destruct (f x); [| exact (nzd_raise _ Hf)].
  destruct (for_each f l); [discriminate | exact IH].
Qed.

Lemma nzd_getitem (r : Csv.dictrow) (k : string) : no_zero_division (getitem r k).
Proof. unfold no_zero_division, getitem. destruct (r !! k); discriminate. Qed.

Lemma nzd_int_cell (r : Csv.dictrow) (k : string) :
  no_zero_division (getitem r k ≫= py_int).
Proof.
  apply nzd_bind; [apply nzd_getitem |]. intros v _.
  unfold no_zero_division, py_int. destruct v as [s |]; [| discriminate].
  destruct (PyInt.parse s); discriminate.
Qed.

Lemma nzd_float_cell (r : Csv.dictrow) (k : string) :
  no_zero_division (getitem r k ≫= py_float).
Proof.
  apply nzd_bind; [apply nzd_getitem |]. intros v _.
  unfold no_zero_division, py_float. destruct v as [s |]; [| discriminate].
  destruct (float_parse s); discriminate.
Qed.

Lemma nzd_count_true (k : string) (rows : list Csv.dictrow) :
  no_zero_division (count_true k rows).
Proof.
  unfold count_true. apply nzd_bind; [| discriminate].
  apply nzd_for_each. intros r.
  apply nzd_bind; [apply nzd_getitem | discriminate].
Qed.

Lemma nzd_routing (rows : list Csv.dictrow) :
  forall dist : gmap (option string) Z, no_zero_division (routing_loop rows dist).
Proof.
  induction rows as [| r rows IH]; intros dist; cbn [routing_loop]; [discriminate |].
  apply nzd_bind; [apply nzd_getitem |]. intros v _. apply IH.
Qed.

Lemma nzd_int_truediv (a b : Z) : b <> 0 -> no_zero_division (PyFloat.int_truediv a b).
Proof.
  intros Hb. unfold no_zero_division, PyFloat.int_truediv.
  destruct (Z.eqb_spec b 0); [contradiction |].
  destruct (PyFloat.is_infinite _); discriminate.
Qed.

Lemma nzd_truediv_int (x : PyFloat.float) (n : Z) :
  0 < n -> no_zero_division (PyFloat.truediv_int x n).
Proof.
  intros Hn. unfold no_zero_division, PyFloat.truediv_int.
  destruct (PyFloat.of_int n) as [d | e] eqn:Hd.
  - rewrite (of_int_nonzero n d Hn Hd). discriminate.
  - unfold PyFloat.of_int in Hd.
    destruct (PyFloat.is_infinite _); [injection Hd as <- |]; discriminate.
Qed.

Lemma nzd_int_mul (n : Z) (y : PyFloat.float) : no_zero_division (PyFloat.int_mul n y).
Proof.
  unfold no_zero_division, PyFloat.int_mul, PyFloat.of_int.
  destruct (PyFloat.is_infinite _); discriminate.
Qed.

(** [get_summary_stats] never divides by zero. *)
Lemma summary_no_zero_division (self : ResearchLogger) (fs : filesystem) :
  no_zero_division (get_summary_stats self fs).
Proof.
  unfold get_summary_stats. destruct (fs !! log_path self) as [f |]; [| discriminate].
  cbv zeta. destruct (Csv.DictReader f) as [| r rs] eqn:Hrows; [discriminate |].
  set (rows := r :: rs).
  assert (Hpos : 0 < Z.of_nat (length rows)) by (cbn; lia).
  clearbody rows.
  apply nzd_bind; [apply nzd_for_each; intros; apply nzd_int_cell |]. intros tokens _.
  apply nzd_bind; [apply nzd_int_truediv; lia |]. intros avg _.
  apply nzd_bind; [apply nzd_for_each; intros; apply nzd_float_cell |]. intros lats _.
  apply nzd_bind; [apply nzd_truediv_int, Hpos |]. intros lat _.
  apply nzd_bind; [apply nzd_routing |]. intros dist _.
  apply nzd_bind; [apply nzd_count_true |]. intros tr _.
  apply nzd_bind; [apply nzd_count_true |]. intros ch _.
  apply nzd_bind; [apply nzd_for_each; intros; apply nzd_int_cell |]. intros sw _.
  apply nzd_bind; [apply nzd_int_mul |]. intros cost _.
  apply nzd_bind.
  { destruct (Z.ltb_spec 0 tr); [| discriminate].
    pose proof (nzd_int_truediv ch tr ltac:(lia)) as Hq.
    unfold no_zero_division in *.
    destruct (PyFloat.int_truediv ch tr); [discriminate | exact (nzd_raise _ Hq)]. }
  intros rate _.
  apply nzd_bind; [apply nzd_int_truediv; lia | discriminate].
Qed.

(** Statistics that are returned carry the guarded quotient. *)
Lemma summary_change_rate (self : ResearchLogger) (fs : filesystem) (st : Stats) :
  get_summary_stats self fs = Ok (Statistics st) ->
  (if 0 <? triggers (fairness_metrics st)
   then NFloat <$> PyFloat.int_truediv (decision_changes (fairness_metrics st))
                                       (triggers (fairness_metrics st))
   else Ok (NInt 0))
  = Ok (change_rate (fairness_metrics st)).
Proof.
  unfold get_summary_stats. destruct (fs !! log_path self) as [f |]; [| discriminate].
  cbv zeta. destruct (Csv.DictReader f) as [| r rs] eqn:Hrows; [discriminate |].
  intros Hst.
  apply bind_inv in Hst as (tokens & _ & Hst).
  apply bind_inv in Hst as (avg & _ & Hst).
  apply bind_inv in Hst as (lats & _ & Hst).
  apply bind_inv in Hst as (lat & _ & Hst).
  apply bind_inv in Hst as (dist & _ & Hst).
  apply bind_inv in Hst as (tr & _ & Hst).
  apply bind_inv in Hst as (ch & _ & Hst).
  apply bind_inv in Hst as (sw & _ & Hst).
  apply bind_inv in Hst as (cost & _ & Hst).
  apply bind_inv in Hst as (rate & Hrate & Hst).
  apply bind_inv in Hst as (srate & _ & Hst).
  injection Hst as <-. cbn. exact Hrate.
Qed.

Lemma guarded_quotient (tr ch : Z) (rate : pynum) :
  (if 0 <? tr then NFloat <$> PyFloat.int_truediv ch tr else Ok (NInt 0)) = Ok rate ->
  0 <= tr ->
  (tr = 0 -> rate = NInt 0) /\
  (0 < tr -> exists q : PyFloat.float, PyFloat.int_truediv ch tr = Ok q /\ rate = NFloat q).
Proof.
  intros Hrate Htr. destruct (Z.ltb_spec 0 tr) as [Hpos | Hle].
  - split; [lia |]. intros _.
    destruct (PyFloat.int_truediv ch tr) as [q |]; [| discriminate].
    injection Hrate as <-. eauto.
  - injection Hrate as <-. split; [reflexivity | lia].
Qed.

End AggregatorLemmas.

(** ** The aggregator: the claims *)

Section AggregatorClaims.

Context `{Schemas} `{FloatText}.

Implicit Types (self : ResearchLogger) (fs : filesystem).
Implicit Types (c : CreditDecision.t * Z) (calls : list (CreditDecision.t * Z)).

(** C1: a decision with [total_tokens = 100], two agent results of 60
    and 10 tokens, no [ml_prediction] and a fairness check that triggered
    without changing the decision, logged with [key_switches = 2] into a
    freshly initialized store, leaves the header and one row with
    [prompt_tokens] 70, [completion_tokens] 30, an empty
    [ml_confidence_score], [is_fairness_triggered] [True] and
    [fairness_decision_changed] [False]; the summary of that store has
    [total_evaluations] 1, token total 100, 1 trigger, a [change_rate]
    equal to 0 and a [switch_rate] of 2.0. *)
Theorem round_trip_scenario self fs (d : CreditDecision.t) :
  fs !! log_path self = None ->
  CreditDecision.total_tokens d = 100 ->
  CreditDecision.llm_results d = [ {| tokens_used := 60 |}; {| tokens_used := 10 |} ] ->
  CreditDecision.ml_prediction d = None ->
  CreditDecision.fairness_check d
    = Some {| is_triggered := true; decision_changed := false |} ->
  latency_readable (d, 2) ->
  let store := log_decision self d 2 (_init_csv self fs) in
  let row := Csv.make_row headers (csv_row (d, 2)) in
  store !! log_path self = Some [headers; csv_row (d, 2)] /\
  Csv.DictReader [headers; csv_row (d, 2)] = [row] /\
  row !! "prompt_tokens" = Some (Some "70") /\
  row !! "completion_tokens" = Some (Some "30") /\
  row !! "ml_confidence_score" = Some (Some "") /\
  row !! "is_fairness_triggered" = Some (Some "True") /\
  row !! "fairness_decision_changed" = Some (Some "False") /\
  exists st : Stats,
    get_summary_stats self store = Ok (Statistics st) /\
    total_evaluations st = 1 /\
    total (token_usage st) = 100 /\
    triggers (fairness_metrics st) = 1 /\
    change_rate (fairness_metrics st) = NFloat (S754_zero false) /\
    num_eq_int (change_rate (fairness_metrics st)) 0 = true /\
    PyFloat.of_int 2 = Ok (switch_rate (resilience st)).
Proof.
  intros Hfresh Htot Hllm Hml Hfc Hlat store row.
  assert (Hstore : store !! log_path self = Some (headers :: map csv_row [(d, 2)])).
  { unfold store. rewrite log_decision_lookup, (init_csv_missing _ _ Hfresh),
      lookup_insert_eq. reflexivity. }
  assert (Hrow : forall k : string,
             row !! k = Csv.make_row headers
               [ isoformat (CreditDecision.timestamp d);
                 CreditDecision.applicant_id d;
                 value (CreditDecision.routing_strategy_used d);
                 ""; ""; "100"; "70"; "30";
                 float_str (CreditDecision.processing_time_ms d);
                 "key_used"; "2"; "True"; "False";
                 outcome_str (CreditDecision.decision d);
                 float_str (CreditDecision.final_risk_score d) ] !! k).
  { intros k. unfold row, csv_row, log_entry, _extract_key_id. cbn [fst snd].
    rewrite Htot, Hllm, Hml, Hfc. reflexivity. }
  split; [exact Hstore |].
  split; [apply (reader_recorded [(d, 2)]) |].
  do 5 (split; [rewrite Hrow; reflexivity |]).
  destruct (summary_recorded self store [(d, 2)] Hstore) as
    (st & Hst & Hn & Htokens & Htr & Hch & _ & Hrate & _ & Hswitch).
  - discriminate.
  - repeat constructor. exact Hlat.
  - unfold counts_in_range. cbn [map length fst snd]. rewrite Htot. cbn. lia.
  - assert (Htrig : count triggered [(d, 2)] = 1).
    { rewrite count_singleton. unfold triggered, log_entry. cbn. rewrite Hfc. reflexivity. }
    assert (Hchg : count changed [(d, 2)] = 0).
    { rewrite count_singleton. unfold changed, log_entry. cbn. rewrite Hfc. reflexivity. }
    rewrite Htrig, Hchg in *.
    destruct (Hrate ltac:(lia)) as (q & Hq & Hcr).
    vm_compute in Hq. injection Hq as <-.
    exists st. split; [exact Hst |].
    split; [exact Hn |].
    split; [rewrite Htokens; cbn [map fst]; rewrite Htot; reflexivity |].
    split; [exact Htr |].
    split; [exact Hcr |].
    split; [rewrite Hcr; reflexivity |].
    rewrite <- Hswitch. reflexivity.
Qed.

(** C5: the summary of a file system without the store is the condition
    [No logs found]; the summary of a store that holds only a header, as
    [_init_csv] leaves it, or nothing at all, is the different condition
    [Log file is empty]; both are returned, not raised, and neither is a
    statistics record. *)
Theorem missing_and_empty self fs (h : Csv.record) :
  get_summary_stats self (delete (log_path self) fs) = Ok (Error "No logs found") /\
  get_summary_stats self (<[log_path self := [h]]> fs) = Ok (Error "Log file is empty") /\
  get_summary_stats self (_init_csv self (delete (log_path self) fs))
    = Ok (Error "Log file is empty") /\
  get_summary_stats self (<[log_path self := []]> fs) = Ok (Error "Log file is empty") /\
  Error "No logs found" <> Error "Log file is empty" /\
  (forall st : Stats,
     get_summary_stats self (delete (log_path self) fs) <> Ok (Statistics st) /\
     get_summary_stats self (<[log_path self := [h]]> fs) <> Ok (Statistics st)).
Proof.
  assert (Hmissing : get_summary_stats self (delete (log_path self) fs)
                     = Ok (Error "No logs found")).
  { unfold get_summary_stats. rewrite lookup_delete_eq. reflexivity. }
  assert (Hempty : forall g : Csv.file,
             Csv.DictReader g = [] ->
             get_summary_stats self (<[log_path self := g]> fs)
             = Ok (Error "Log file is empty")).
  { intros g Hg. unfold get_summary_stats. rewrite lookup_insert_eq. cbv zeta.
    rewrite Hg. reflexivity. }
  split; [exact Hmissing |].
  split; [apply Hempty; reflexivity |].
  split.
  { rewrite init_csv_missing by apply lookup_delete_eq.
    unfold get_summary_stats. rewrite lookup_insert_eq. reflexivity. }
  split; [apply Hempty; reflexivity |].
  split; [discriminate |].
  intros st. rewrite Hmissing, (Hempty [h] eq_refl). split; discriminate.
Qed.

End AggregatorClaims.

(** ** The scenarios *)

Section Scenarios.

Import Scenario.

(** C10: [decision_changes] counts the rows whose column
    [fairness_decision_changed] is [True], whatever their column
    [is_fairness_triggered] holds; so the store of one triggered row without
    a change and two untriggered rows marked as changed has 1 trigger, 2
    decision changes and a [change_rate] of 2.0, above 1. *)
Theorem changes_counted_without_trigger :
  (forall (S : Schemas) (F : FloatText) (self : ResearchLogger) (fs : filesystem)
          (st : Stats),
     get_summary_stats self fs = Ok (Statistics st) ->
     exists f : Csv.file,
       fs !! log_path self = Some f /\
       decision_changes (fairness_metrics st)
         = rows_marked "fairness_decision_changed" (Csv.DictReader f)) /\
  (forall (S : Schemas) (F : FloatText) (calls : list (CreditDecision.t * Z)),
     rows_marked "fairness_decision_changed"
       (Csv.DictReader (headers :: map csv_row calls))
     = count (fun c =>
                match CreditDecision.fairness_check (fst c) with
                | Some fc => decision_changed fc
                | None => false
                end) calls) /\
  map triggered lopsided_calls = [true; false; false] /\
  map changed lopsided_calls = [false; true; true] /\
  exists st : Stats,
    get_summary_stats logger (store_of lopsided_calls) = Ok (Statistics st) /\
    triggers (fairness_metrics st) = 1 /\
    decision_changes (fairness_metrics st) = 2 /\
    change_rate (fairness_metrics st) = NFloat f2_0 /\
    num_gt_int (change_rate (fairness_metrics st)) 1 = true.
Proof.
  split; [| split; [| split; [| split]]].
  - intros S F self fs st Hst.
    destruct (summary_counts self fs st Hst) as (f & Hf & _ & _ & Hch). eauto.
  - intros S F calls. apply changed_rows.
  - reflexivity.
  - reflexivity.
  - eexists. split; [vm_compute; reflexivity |].
    repeat split; reflexivity.
Qed.

Lemma round_trip_scenario_witness :
  (∅ : filesystem) !! log_path logger = None /\
  CreditDecision.total_tokens round_trip = 100 /\
  CreditDecision.llm_results round_trip
    = [ {| tokens_used := 60 |}; {| tokens_used := 10 |} ] /\
  CreditDecision.ml_prediction round_trip = None /\
  CreditDecision.fairness_check round_trip
    = Some {| is_triggered := true; decision_changed := false |} /\
  latency_readable (round_trip, 2) /\
  exists st : Stats,
    get_summary_stats logger (log_decision logger round_trip 2 (_init_csv logger ∅))
      = Ok (Statistics st) /\
    total_evaluations st = 1 /\
    total (token_usage st) = 100 /\
    triggers (fairness_metrics st) = 1 /\
    num_eq_int (change_rate (fairness_metrics st)) 0 = true /\
    switch_rate (resilience st) = f2_0.
Proof.
  assert (H1 : (∅ : filesystem) !! log_path logger = None) by reflexivity.
  assert (H6 : latency_readable (round_trip, 2)) by reflexivity.
  destruct (round_trip_scenario logger ∅ round_trip H1 eq_refl eq_refl eq_refl eq_refl H6)
    as (_ & _ & _ & _ & _ & _ & _ & st & Hst & Hn & Htok & Htr & _ & Hcr & Hsw).
  repeat (split; [reflexivity |]).
  exists st. repeat (split; [assumption |]).
  assert (Htwo : PyFloat.of_int 2 = Ok f2_0) by reflexivity.
  rewrite Htwo in Hsw. injection Hsw as <-. reflexivity.
Defined.

End Scenarios.

(** * Further properties of the logger *)

(** ** How the reader names the cells of a record *)

Section ReaderColumns.

Lemma fold_insert_other {V : Type} (key : string) (l : list (string * V)) :
  forall d : gmap string (option V),
    Forall (fun kv => fst kv <> key) l ->
    fold_left (fun d kv => <[fst kv := Some (snd kv)]> d) l d !! key = d !! key.
Proof.
  induction l as [| kv l IH]; intros d Hl; [reflexivity |].
  inversion Hl as [| ? ? Hkv Hl']; subst. cbn [fold_left].
  rewrite IH by assumption. apply lookup_insert_ne, Hkv.
Qed.

Lemma fold_none_other {V : Type} (key : string) (l : list string) :
  forall d : gmap string (option V),
    key ∉ l ->
    fold_left (fun d k => <[k := None]> d) l d !! key = d !! key.
Proof.
  induction l as [| k l IH]; intros d Hl; [reflexivity |].
  apply not_elem_of_cons in Hl as [Hk Hl]. cbn [fold_left].
  rewrite IH by assumption. apply lookup_insert_ne. congruence.
Qed.

(** A name that the header does not hold is not a key of any row. *)
Lemma make_row_absent (fieldnames row : Csv.record) (key : string) :
  key ∉ fieldnames -> Csv.make_row fieldnames row !! key = None.
Proof.
  intros Hkey. unfold Csv.make_row.
  rewrite fold_none_other.
  - rewrite fold_insert_other; [apply lookup_empty |].
    apply Forall_forall. intros [k v] Hkv Heq. cbn in Heq. subst k.
    apply Hkey. apply list_elem_of_In. apply list_elem_of_In in Hkv.
    eapply in_combine_l, Hkv.
  - intros Hin. apply Hkey. exact (subseteq_drop _ _ _ Hin).
Qed.

Ltac each_record r :=
  do 15 (destruct r as [| ? r]; [reflexivity |]);
  unfold Csv.make_row, headers; cbn [length combine drop];
  rewrite drop_nil; reflexivity.

(** Under the header of the recorder, the reader gives the cell at the
    position of the column, and [None] when the record is too short. *)
Lemma column_position (r : Csv.record) (i : nat) (key : string) :
  headers !! i = Some key -> Csv.make_row headers r !! key = Some (r !! i).
Proof.
  intros Hi.
  do 15 (destruct i as [| i]; [injection Hi as <-; each_record r |]).
  discriminate.
Qed.

End ReaderColumns.

(** ** The rows of the recorder, column by column *)

Section Columns.

Context `{Schemas} `{FloatText}.

Implicit Types (d : CreditDecision.t) (k : Z) (self : ResearchLogger) (fs : filesystem).

Lemma recorded_cell d k (i : nat) (key : string) :
  headers !! i = Some key ->
  exists cell : string,
    csv_row (d, k) !! i = Some cell /\
    Csv.make_row headers (csv_row (d, k)) !! key = Some (Some cell).
Proof.
  intros Hi. rewrite (column_position _ i key Hi).
  assert (Hlt : (i < 15)%nat) by (apply lookup_lt_Some in Hi; exact Hi).
  destruct (csv_row (d, k) !! i) as [cell |] eqn:Hcell.
  - eauto.
  - apply lookup_ge_None in Hcell. rewrite csv_row_length in Hcell. lia.
Qed.

(** X2: the two fairness columns of the record that [log_decision]
    writes are the texts of the booleans of the fairness check, and
    [False] both when the decision has no fairness check; such a row is
    counted neither as a trigger nor as a decision change. *)
Theorem fairness_defaults d k :
  let row := Csv.make_row headers (csv_row (d, k)) in
  let text := fun b : bool => if b then "True" else "False" in
  row !! "is_fairness_triggered"
    = Some (Some match CreditDecision.fairness_check d with
                 | Some fc => text (is_triggered fc)
                 | None => "False"
                 end) /\
  row !! "fairness_decision_changed"
    = Some (Some match CreditDecision.fairness_check d with
                 | Some fc => text (decision_changed fc)
                 | None => "False"
                 end) /\
  (CreditDecision.fairness_check d = None ->
     rows_marked "is_fairness_triggered" [row] = 0 /\
     rows_marked "fairness_decision_changed" [row] = 0).
Proof.
  intros row text.
  assert (Htr : row !! "is_fairness_triggered"
                = Some (Some match CreditDecision.fairness_check d with
                             | Some fc => text (is_triggered fc)
                             | None => "False"
                             end)).
  { unfold row. destruct (CreditDecision.fairness_check d) eqn:Hfc;
      unfold csv_row, log_entry; cbn [fst snd]; rewrite Hfc; reflexivity. }
  assert (Hch : row !! "fairness_decision_changed"
                = Some (Some match CreditDecision.fairness_check d with
                             | Some fc => text (decision_changed fc)
                             | None => "False"
                             end)).
  { unfold row. destruct (CreditDecision.fairness_check d) eqn:Hfc;
      unfold csv_row, log_entry; cbn [fst snd]; rewrite Hfc; reflexivity. }
  split; [exact Htr |]. split; [exact Hch |].
  intros Hnone. rewrite Hnone in Htr, Hch.
  unfold rows_marked. rewrite !count_singleton, Htr, Hch. split; reflexivity.
Qed.

End Columns.

(** ** Stores that the recorder did not initialize *)

Section ForeignStores.

Context `{Schemas} `{FloatText}.

Implicit Types (d : CreditDecision.t) (k : Z) (self : ResearchLogger) (fs : filesystem).

Lemma first_row_raises self fs (h r : Csv.record) (records : list Csv.record) (e : exn) :
  fs !! log_path self = Some (h :: r :: records) ->
  r <> [] ->
  getitem (Csv.make_row h r) "total_tokens" ≫= py_int = Raise e ->
  get_summary_stats self fs = Raise e.
Proof.
  intros Hfs Hr Hfirst. unfold get_summary_stats. rewrite Hfs. cbv zeta.
  unfold Csv.DictReader. rewrite filter_cons_True by exact Hr.
  cbn [map for_each]. rewrite Hfirst. reflexivity.
Qed.




End ForeignStores.

(** ** What the summary holds *)

Section Aggregates.

Context `{Schemas} `{FloatText}.

Implicit Types (self : ResearchLogger) (fs : filesystem).
Implicit Types (c : CreditDecision.t * Z) (calls : list (CreditDecision.t * Z)).

Ltac step := cbn [mbind result_mbind fmap result_fmap result_bind mret result_ret].

(** Statistics that are returned, field by field. *)
Lemma summary_inversion self fs (st : Stats) :
  get_summary_stats self fs = Ok (Statistics st) ->
  exists (f : Csv.file) (tokens : list Z) (lats : list PyFloat.float) (sw : list Z),
    let rows := Csv.DictReader f in
    let n := Z.of_nat (length rows) in
    fs !! log_path self = Some f /\
    rows <> [] /\
    for_each (fun r => getitem r "total_tokens" ≫= py_int) rows = Ok tokens /\
    for_each (fun r => getitem r "latency_ms" ≫= py_float) rows = Ok lats /\
    for_each (fun r => getitem r "key_switches" ≫= py_int) rows = Ok sw /\
    routing_loop rows ∅ = Ok (routing_distribution st) /\
    total_evaluations st = n /\
    total (token_usage st) = sum_int tokens /\
    PyFloat.int_truediv (sum_int tokens) n = Ok (average_per_request (token_usage st)) /\
    PyFloat.int_mul (sum_int tokens) mock_price = Ok (estimated_cost_usd (token_usage st)) /\
    PyFloat.truediv_int (float_sum lats) n = Ok (average_latency_ms (performance st)) /\
    total_key_switches (resilience st) = sum_int sw /\
    PyFloat.int_truediv (sum_int sw) n = Ok (switch_rate (resilience st)).
Proof.
  unfold get_summary_stats. destruct (fs !! log_path self) as [f |]; [| discriminate].
  cbv zeta. destruct (Csv.DictReader f) as [| r rs] eqn:Hrows; [discriminate |].
  rewrite <- Hrows. intros Hst.
  apply bind_inv in Hst as (tokens & Htokens & Hst).
  apply bind_inv in Hst as (avg & Havg & Hst).
  apply bind_inv in Hst as (lats & Hlats & Hst).
  apply bind_inv in Hst as (lat & Hlat & Hst).
  apply bind_inv in Hst as (dist & Hdist & Hst).
  apply bind_inv in Hst as (tr & _ & Hst).
  apply bind_inv in Hst as (ch & _ & Hst).
  apply bind_inv in Hst as (sw & Hsw & Hst).
  apply bind_inv in Hst as (cost & Hcost & Hst).
  apply bind_inv in Hst as (rate & _ & Hst).
  apply bind_inv in Hst as (srate & Hsrate & Hst).
  injection Hst as <-. exists f, tokens, lats, sw. cbn.
  repeat split; try assumption; try reflexivity.
  rewrite Hrows. discriminate.
Qed.

Lemma count_cons {T : Type} (p : T -> bool) (x : T) (l : list T) :
  count p (x :: l) = (if p x then 1 else 0) + count p l.
Proof.
  unfold count. destruct (p x) eqn:Hp.
  - rewrite filter_cons_True by assumption. cbn [length]. lia.
  - rewrite filter_cons_False by (rewrite Hp; discriminate). lia.
Qed.

(** The loop over the rows counts each tag it meets. *)
Lemma routing_loop_counts (rows : list Csv.dictrow) :
  forall (dist dist' : gmap (option string) Z) (key : option string),
    routing_loop rows dist = Ok dist' ->
    dist' !! key
    = if occurrences key rows =? 0 then dist !! key
      else Some (default 0 (dist !! key) + occurrences key rows).
Proof.
  induction rows as [| r rows IH]; intros dist dist' key Hloop.
  - injection Hloop as <-. reflexivity.
  - cbn [routing_loop] in Hloop.
    apply bind_inv in Hloop as (tag & Htag & Hloop).
    unfold getitem in Htag.
    destruct (r !! "routing_strategy") as [v |] eqn:Hr; [| discriminate].
    injection Htag as ->.
    rewrite (IH _ _ key Hloop). unfold occurrences. rewrite count_cons, Hr.
    set (n := count (fun r => bool_decide (r !! "routing_strategy" = Some key)) rows).
    assert (Hn : 0 <= n) by apply count_bound.
    destruct (decide (tag = key)) as [-> | Hne].
    + rewrite bool_decide_eq_true_2 by reflexivity.
      rewrite lookup_insert_eq. cbn [from_option id].
      destruct (Z.eqb_spec n 0), (Z.eqb_spec (1 + n) 0); try lia; f_equal; lia.
    + rewrite bool_decide_eq_false_2 by congruence.
      rewrite lookup_insert_ne by exact Hne. rewrite Z.add_0_l. reflexivity.
Qed.

(** X10: statistics that are returned hold, under every routing tag that
    some row carries, the number of rows that carry it, and nothing under
    any other tag. *)
Theorem routing_distribution_counts self fs (st : Stats) :
  get_summary_stats self fs = Ok (Statistics st) ->
  exists f : Csv.file,
    fs !! log_path self = Some f /\
    forall key : option string,
      routing_distribution st !! key = tally (occurrences key (Csv.DictReader f)).
Proof.
  intros Hst.
  destruct (summary_inversion self fs st Hst)
    as (f & tokens & lats & sw & Hf & _ & _ & _ & _ & Hdist & _).
  exists f. split; [exact Hf |]. intros key.
  rewrite (routing_loop_counts _ _ _ key Hdist), lookup_empty. reflexivity.
Qed.

(** X11: statistics that are returned count at least one evaluation, and
    neither the triggers nor the decision changes are negative or more
    than the evaluations. *)
Theorem counters_bounded self fs (st : Stats) :
  get_summary_stats self fs = Ok (Statistics st) ->
  1 <= total_evaluations st /\
  0 <= triggers (fairness_metrics st) <= total_evaluations st /\
  0 <= decision_changes (fairness_metrics st) <= total_evaluations st.
Proof.
  intros Hst.
  destruct (summary_counts self fs st Hst) as (f & Hf & Hn & Htr & Hch).
  destruct (summary_inversion self fs st Hst)
    as (f' & tokens & lats & sw & Hf' & Hrows & _).
  rewrite Hf in Hf'. injection Hf' as <-.
  rewrite Hn, Htr, Hch. unfold rows_marked.
  split; [| split; apply count_bound].
  destruct (Csv.DictReader f); [congruence | cbn [length]; lia].
Qed.

Lemma int_truediv_cases (a b : Z) :
  b <> 0 ->
  (exists q, PyFloat.int_truediv a b = Ok q)
  \/ PyFloat.int_truediv a b = Raise OverflowError.
Proof.
  intros Hb. unfold PyFloat.int_truediv.
  destruct (Z.eqb_spec b 0); [contradiction |].
  destruct (PyFloat.is_infinite _); eauto.
Qed.

Lemma of_int_cases (n : Z) :
  (exists d, PyFloat.of_int n = Ok d) \/ PyFloat.of_int n = Raise OverflowError.
Proof. unfold PyFloat.of_int. destruct (PyFloat.is_infinite _); eauto. Qed.

Lemma truediv_int_cases (x : PyFloat.float) (n : Z) :
  0 < n ->
  (exists q, PyFloat.truediv_int x n = Ok q)
  \/ PyFloat.truediv_int x n = Raise OverflowError.
Proof.
  intros Hn. unfold PyFloat.truediv_int.
  destruct (of_int_cases n) as [[d Hd] | ->]; [| right; reflexivity].
  rewrite Hd, (of_int_nonzero n d Hn Hd). eauto.
Qed.

Lemma int_mul_cases (n : Z) (y : PyFloat.float) :
  (exists p, PyFloat.int_mul n y = Ok p) \/ PyFloat.int_mul n y = Raise OverflowError.
Proof.
  unfold PyFloat.int_mul.
  destruct (of_int_cases n) as [[d ->] | ->]; eauto.
Qed.

End Aggregates.

(** ** The order of the rows *)

Section RowOrder.

Context `{Schemas} `{FloatText}.

Implicit Types (self : ResearchLogger) (fs : filesystem).
Implicit Types (c : CreditDecision.t * Z) (calls : list (CreditDecision.t * Z)).

Lemma sum_int_perm (l l' : list Z) : l ≡ₚ l' -> sum_int l = sum_int l'.
Proof.
  induction 1 as [| x l l' _ IH | x y l | l l' l'' _ IH1 _ IH2].
  - reflexivity.
  - rewrite !sum_int_cons, IH. reflexivity.
  - rewrite !sum_int_cons. lia.
  - congruence.
Qed.

Lemma count_perm {T : Type} (p : T -> bool) (l l' : list T) :
  l ≡ₚ l' -> count p l = count p l'.
Proof.
  induction 1 as [| x l l' _ IH | x y l | l l' l'' _ IH1 _ IH2].
  - reflexivity.
  - rewrite !count_cons, IH. reflexivity.
  - rewrite !count_cons. lia.
  - congruence.
Qed.

Lemma counts_in_range_perm calls calls' :
  calls ≡ₚ calls' -> counts_in_range calls -> counts_in_range calls'.
Proof.
  intros Hperm (Hn & Htok & Hsw). unfold counts_in_range.
  rewrite <- (Permutation_length Hperm).
  rewrite <- (sum_int_perm _ _ (Permutation_map _ Hperm)).
  rewrite <- (sum_int_perm _ _ (Permutation_map snd Hperm)).
  repeat split; assumption.
Qed.

End RowOrder.

(** ** The further scenarios *)

Section FurtherScenarios.

Import Scenario Cases.



Lemma routing_distribution_counts_witness :
  exists st : Stats,
    get_summary_stats logger (store_of lopsided_calls) = Ok (Statistics st) /\
    routing_distribution st !! Some "ml_only" = Some 3 /\
    routing_distribution st !! Some "hybrid" = None /\
    routing_distribution st !! None = None.
Proof.
  assert (Hst : exists st, get_summary_stats logger (store_of lopsided_calls)
                           = Ok (Statistics st))
    by (eexists; vm_compute; reflexivity).
  destruct Hst as [st Hst]. exists st. split; [exact Hst |].
  destruct (routing_distribution_counts logger _ st Hst) as (f & Hf & Hdist).
  assert (Hfile : store_of lopsided_calls !! log_path logger
                  = Some (headers :: map csv_row lopsided_calls))
    by (vm_compute; reflexivity).
  rewrite Hfile in Hf. injection Hf as <-.
  rewrite !Hdist. repeat split; vm_compute; reflexivity.
Defined.

Lemma counters_bounded_witness :
  exists st : Stats,
    get_summary_stats logger (store_of lopsided_calls) = Ok (Statistics st) /\
    1 <= total_evaluations st /\
    0 <= triggers (fairness_metrics st) <= total_evaluations st /\
    0 <= decision_changes (fairness_metrics st) <= total_evaluations st.
Proof.
  assert (Hst : exists st, get_summary_stats logger (store_of lopsided_calls)
                           = Ok (Statistics st))
    by (eexists; vm_compute; reflexivity).
  destruct Hst as [st Hst]. exists st. split; [exact Hst |].
  exact (counters_bounded logger _ st Hst).
Defined.

End FurtherScenarios.

(** * The recorded store, the reader and the state of the process *)

(** ** What the reader returns for a cell *)

Section ReaderCells.

Example universal_newlines_examples :
  Csv.universal_newlines (String "x" (String "013" (String "010" "y")))
    = String "x" (String "010" "y") /\
  Csv.universal_newlines (String "x" (String "013" "y")) = String "x" (String "010" "y") /\
  Csv.universal_newlines (String "010" (String "013" "")) = String "010" (String "010" "") /\
  Csv.universal_newlines "plain text" = "plain text".
Proof. repeat split; reflexivity. Qed.

Example read_cell_examples :
  Csv.read_cell "A-1" = Some "A-1" /\
  Csv.read_cell (String "013" "") = Some (String "010" "") /\
  Csv.as_written ["2025-01-15T10:30:00"; "A-1"; ""; "120.5"; "True"].
Proof. repeat split; repeat constructor. Qed.

End ReaderCells.

(** ** The summary of a recorded store, in closed form *)

Section RecordedStores.

Context `{Schemas} `{FloatText}.

Implicit Types (d : CreditDecision.t) (k : Z) (self : ResearchLogger) (fs : filesystem).
Implicit Types (c : CreditDecision.t * Z) (calls : list (CreditDecision.t * Z)).

Ltac step := cbn [mbind result_mbind fmap result_fmap result_bind mret result_ret].

Lemma summary_unfold self fs :
  get_summary_stats self fs
  = match fs !! log_path self with
    | None => Ok (Error "No logs found")
    | Some f => aggregate (Csv.DictReader f)
    end.
Proof. unfold get_summary_stats, aggregate. destruct (fs !! log_path self); reflexivity. Qed.

(** On a store that the recorder wrote, the summary is the arithmetic on
    the sums and the counts of the calls. *)
Lemma summary_recorded_form self fs calls :
  fs !! log_path self = Some (headers :: map csv_row calls) ->
  calls <> [] ->
  Forall latency_readable calls ->
  exists routing : gmap (option string) Z,
    (forall key : option string,
       routing !! key
       = tally (occurrences key (Csv.DictReader (headers :: map csv_row calls)))) /\
    get_summary_stats self fs
    = statistics_of
        (Z.of_nat (length calls))
        (sum_int (map (fun c => CreditDecision.total_tokens (fst c)) calls))
        (float_sum (map (fun c => CreditDecision.processing_time_ms (fst c)) calls))
        routing (count triggered calls) (count changed calls)
        (sum_int (map snd calls)).
Proof.
  intros Hfs Hne Hlat.
  destruct (routing_recorded calls ∅) as [routing Hrouting].
  exists routing. split.
  - intros key.
    rewrite reader_recorded, (routing_loop_counts _ _ _ key Hrouting), lookup_empty.
    reflexivity.
  - unfold get_summary_stats. rewrite Hfs. cbv zeta. rewrite reader_recorded.
    destruct (map (fun c => Csv.make_row headers (csv_row c)) calls) as [| r rs] eqn:Hrows.
    { destruct calls; [congruence | discriminate]. }
    cbv iota. rewrite <- Hrows in Hrouting |- *. clear r rs Hrows.
    rewrite length_map, tokens_recorded. step.
    rewrite (latencies_recorded _ Hlat), Hrouting,
      triggers_recorded, changes_recorded, switches_recorded.
    unfold statistics_of.
    destruct (PyFloat.int_truediv _ (Z.of_nat (length calls))) as [avg |]; [| reflexivity].
    step.
    destruct (PyFloat.truediv_int _ _) as [lat |]; [| reflexivity].
    step. reflexivity.
Qed.

Lemma statistics_of_cases (n tokens : Z) (latency : PyFloat.float)
    (routing : gmap (option string) Z) (tr ch switches : Z) :
  0 < n -> 0 <= tr ->
  (exists st : Stats,
     statistics_of n tokens latency routing tr ch switches = Ok (Statistics st))
  \/ statistics_of n tokens latency routing tr ch switches = Raise OverflowError.
Proof.
  intros Hn Htr. unfold statistics_of.
  destruct (int_truediv_cases tokens n ltac:(lia)) as [[avg ->] | ->];
    [step | right; reflexivity].
  destruct (truediv_int_cases latency n Hn) as [[lat ->] | ->];
    [step | right; reflexivity].
  destruct (int_mul_cases tokens mock_price) as [[cost ->] | ->];
    [step | right; reflexivity].
  destruct (Z.ltb_spec 0 tr) as [Hpos | Hzero].
  - destruct (int_truediv_cases ch tr ltac:(lia)) as [[q ->] | ->];
      [step | right; reflexivity].
    destruct (int_truediv_cases switches n ltac:(lia)) as [[rate ->] | ->];
      [step; eauto | right; reflexivity].
  - step.
    destruct (int_truediv_cases switches n ltac:(lia)) as [[rate ->] | ->];
      [step; eauto | right; reflexivity].
Qed.

(** The sum of the latencies decides neither whether statistics are
    returned nor any of them but the mean latency. *)
Lemma statistics_of_latency (n tokens : Z) (lat lat' : PyFloat.float)
    (routing : gmap (option string) Z) (tr ch switches : Z) :
  0 < n -> 0 <= tr ->
  (statistics_of n tokens lat routing tr ch switches = Raise OverflowError /\
   statistics_of n tokens lat' routing tr ch switches = Raise OverflowError)
  \/ (exists st st' : Stats,
        statistics_of n tokens lat routing tr ch switches = Ok (Statistics st) /\
        statistics_of n tokens lat' routing tr ch switches = Ok (Statistics st') /\
        total_evaluations st = total_evaluations st' /\
        token_usage st = token_usage st' /\
        routing_distribution st = routing_distribution st' /\
        fairness_metrics st = fairness_metrics st' /\
        resilience st = resilience st').
Proof.
  intros Hn Htr. unfold statistics_of.
  destruct (int_truediv_cases tokens n ltac:(lia)) as [[avg ->] | ->];
    [step | left; split; reflexivity].
  unfold PyFloat.truediv_int.
  destruct (of_int_cases n) as [[den Hden] | ->]; [| left; split; reflexivity].
  rewrite Hden, (of_int_nonzero n den Hn Hden). step.
  destruct (int_mul_cases tokens mock_price) as [[cost ->] | ->];
    [step | left; split; reflexivity].
  destruct (Z.ltb_spec 0 tr) as [Hpos | Hzero].
  - destruct (int_truediv_cases ch tr ltac:(lia)) as [[q ->] | ->];
      [step | left; split; reflexivity].
    destruct (int_truediv_cases switches n ltac:(lia)) as [[rate ->] | ->];
      [step | left; split; reflexivity].
    right. do 2 eexists. repeat split; reflexivity.
  - step.
    destruct (int_truediv_cases switches n ltac:(lia)) as [[rate ->] | ->];
      [step | left; split; reflexivity].
    right. do 2 eexists. repeat split; reflexivity.
Qed.

Lemma calls_counted calls : calls <> [] -> 0 < Z.of_nat (length calls).
Proof. destruct calls; [congruence | cbn; lia]. Qed.

(** A recorded store with a data row gives statistics or overflows. *)
Lemma recorded_cases self fs calls :
  fs !! log_path self = Some (headers :: map csv_row calls) ->
  calls <> [] ->
  Forall latency_readable calls ->
  (exists st : Stats, get_summary_stats self fs = Ok (Statistics st))
  \/ get_summary_stats self fs = Raise OverflowError.
Proof.
  intros Hfs Hne Hlat.
  destruct (summary_recorded_form self fs calls Hfs Hne Hlat) as (routing & _ & ->).
  apply statistics_of_cases; [apply calls_counted, Hne | apply count_bound].
Qed.

(** X1: when the reader returns the cells of the record that
    [log_decision] writes as they were written (no carriage return in a
    cell, no cell beyond the field limit), the record has one cell per name
    of the header, in the order of the header: read back, the row has a
    text under each of the fifteen names, never [None], and no other key;
    the columns that are copied from the decision hold the text of its
    fields. *)
Theorem columns_aligned d k :
  Csv.as_written (csv_row (d, k)) ->
  let row := Csv.make_row headers (csv_row (d, k)) in
  map (fun key => row !! key) headers
    = map (fun cell => Some (Some cell)) (csv_row (d, k)) /\
  map (fun key => row !! key) headers
    = map (fun cell => Some (Csv.read_cell cell)) (csv_row (d, k)) /\
  (forall key : string, key ∈ headers <-> is_Some (row !! key)) /\
  (forall key : string, row !! key <> Some None) /\
  row !! "timestamp" = Some (Some (isoformat (CreditDecision.timestamp d))) /\
  row !! "applicant_id" = Some (Some (CreditDecision.applicant_id d)) /\
  row !! "routing_strategy"
    = Some (Some (value (CreditDecision.routing_strategy_used d))) /\
  row !! "total_tokens" = Some (Some (PyInt.str (CreditDecision.total_tokens d))) /\
  row !! "latency_ms"
    = Some (Some (float_str (CreditDecision.processing_time_ms d))) /\
  row !! "key_switches" = Some (Some (PyInt.str k)) /\
  row !! "final_decision" = Some (Some (outcome_str (CreditDecision.decision d))) /\
  row !! "risk_score" = Some (Some (float_str (CreditDecision.final_risk_score d))).
Proof.
  intros Hwritten row.
  assert (Hin : forall key, key ∈ headers -> exists cell, row !! key = Some (Some cell)).
  { intros key Hkey. apply list_elem_of_lookup in Hkey as [i Hi].
    destruct (recorded_cell d k i key Hi) as (cell & _ & Hrow). eauto. }
  split; [reflexivity |].
  split.
  { change (map (fun key => row !! key) headers)
      with (map (fun cell => Some (Some cell)) (csv_row (d, k))).
    apply map_ext_Forall. eapply Forall_impl; [exact Hwritten |].
    intros cell Hcell. cbn beta. rewrite Hcell. reflexivity. }
  split; [| split; [| repeat split; reflexivity]].
  - intros key. split.
    + intros Hkey. destruct (Hin key Hkey) as [cell ->]. eauto.
    + intros [v Hv]. destruct (decide (key ∈ headers)) as [Hkey | Hkey]; [exact Hkey |].
      unfold row in Hv. rewrite (make_row_absent _ _ _ Hkey) in Hv. discriminate.
  - intros key Hnone. destruct (decide (key ∈ headers)) as [Hkey | Hkey].
    + destruct (Hin key Hkey) as [cell Hcell]. congruence.
    + unfold row in Hnone. rewrite (make_row_absent _ _ _ Hkey) in Hnone. discriminate.
Qed.

(** X7: under the header of the recorder, in a file whose cells the
    reader returns as they were written, a first data record with fewer
    than six cells makes the summary raise [TypeError], and one whose sixth
    cell is ASCII text that is not an integer makes it raise
    [ValueError]. *)
Theorem malformed_first_row self fs (r : Csv.record) (records : list Csv.record) :
  fs !! log_path self = Some (headers :: r :: records) ->
  r <> [] ->
  Forall Csv.as_written (r :: records) ->
  ((length r <= 5)%nat -> get_summary_stats self fs = Raise TypeError) /\
  (forall cell : string,
     r !! 5%nat = Some cell ->
     PyInt.is_ascii cell = true ->
     PyInt.parse cell = None ->
     get_summary_stats self fs = Raise ValueError).
Proof.
  intros Hfs Hr _.
  pose proof (column_position r 5 "total_tokens" eq_refl) as Hcol.
  split.
  - intros Hshort. apply (first_row_raises _ _ _ _ _ _ Hfs Hr).
    unfold getitem. rewrite Hcol, (lookup_ge_None_2 r 5) by lia. reflexivity.
  - intros cell Hcell _ Hparse. apply (first_row_raises _ _ _ _ _ _ Hfs Hr).
    unfold getitem. rewrite Hcol, Hcell. cbn. rewrite Hparse. reflexivity.
Qed.

(** X8: on a store that the recorder wrote, with at least one data row,
    whose cells the reader returns as they were written, however large the
    numbers in it, the summary returns statistics or raises
    [OverflowError]; no column is missing and no cell fails to read. *)
Theorem recorded_store_only_overflows self fs calls :
  fs !! log_path self = Some (headers :: map csv_row calls) ->
  calls <> [] ->
  Forall latency_readable calls ->
  Forall Csv.as_written (map csv_row calls) ->
  (exists st : Stats, get_summary_stats self fs = Ok (Statistics st))
  \/ get_summary_stats self fs = Raise OverflowError.
Proof. intros Hfs Hne Hlat _. apply (recorded_cases self fs calls Hfs Hne Hlat). Qed.

(** X9: on a store that the recorder wrote, with at least one data row,
    whose cells the reader returns as they were written and whose counts
    are below [2^53], the statistics hold the number of calls, the sum of
    their [total_tokens] with its quotient by the number of calls and its
    product by the mock price, the quotient of the interpreter's sum of
    the latencies, and the sum of the [key_switches] with its quotient. *)
Theorem aggregates_recorded self fs calls :
  fs !! log_path self = Some (headers :: map csv_row calls) ->
  calls <> [] ->
  Forall latency_readable calls ->
  Forall Csv.as_written (map csv_row calls) ->
  counts_in_range calls ->
  let n := Z.of_nat (length calls) in
  let tokens := sum_int (map (fun c => CreditDecision.total_tokens (fst c)) calls) in
  let latency :=
    float_sum (map (fun c => CreditDecision.processing_time_ms (fst c)) calls) in
  let switches := sum_int (map snd calls) in
  exists st : Stats,
    get_summary_stats self fs = Ok (Statistics st) /\
    total_evaluations st = n /\
    total (token_usage st) = tokens /\
    PyFloat.int_truediv tokens n = Ok (average_per_request (token_usage st)) /\
    PyFloat.int_mul tokens mock_price = Ok (estimated_cost_usd (token_usage st)) /\
    PyFloat.truediv_int latency n = Ok (average_latency_ms (performance st)) /\
    total_key_switches (resilience st) = switches /\
    PyFloat.int_truediv switches n = Ok (switch_rate (resilience st)).
Proof.
  intros Hfs Hne Hlat _ Hrange n tokens latency switches.
  destruct (summary_recorded self fs calls Hfs Hne Hlat Hrange) as (st & Hst & _).
  destruct (summary_inversion self fs st Hst)
    as (f & tk & lats & sw & Hf & _ & Htk & Hlats & Hsw & _
        & Hn & Htot & Havg & Hcost & Hlatency & Hswitch & Hsrate).
  rewrite Hfs in Hf. injection Hf as <-.
  rewrite reader_recorded in *. rewrite length_map in *.
  rewrite tokens_recorded in Htk. injection Htk as <-.
  rewrite (latencies_recorded _ Hlat) in Hlats. injection Hlats as <-.
  rewrite switches_recorded in Hsw. injection Hsw as <-.
  exists st. repeat split; assumption.
Qed.

(** X12: two stores that the recorder wrote from the same calls in a
    different order, with at least one data row and cells that the reader
    returns as they were written, both raise [OverflowError] or both
    return statistics, and these have the same number of evaluations, the
    same token usage, the same routing distribution, the same fairness
    metrics and the same resilience metrics; only the mean latency, a sum
    of floats, may depend on the order. *)
Theorem row_order_irrelevant self (self' : ResearchLogger) fs (fs' : filesystem)
    calls calls' :
  calls ≡ₚ calls' ->
  fs !! log_path self = Some (headers :: map csv_row calls) ->
  fs' !! log_path self' = Some (headers :: map csv_row calls') ->
  calls <> [] ->
  Forall latency_readable calls ->
  Forall Csv.as_written (map csv_row calls) ->
  (get_summary_stats self fs = Raise OverflowError /\
   get_summary_stats self' fs' = Raise OverflowError)
  \/ (exists st st' : Stats,
        get_summary_stats self fs = Ok (Statistics st) /\
        get_summary_stats self' fs' = Ok (Statistics st') /\
        total_evaluations st = total_evaluations st' /\
        token_usage st = token_usage st' /\
        routing_distribution st = routing_distribution st' /\
        fairness_metrics st = fairness_metrics st' /\
        resilience st = resilience st').
Proof.
  intros Hperm Hfs Hfs' Hne Hlat _.
  assert (Hne' : calls' <> []).
  { intros ->. apply Permutation_nil_r in Hperm. contradiction. }
  assert (Hlat' : Forall latency_readable calls') by (rewrite <- Hperm; exact Hlat).
  destruct (summary_recorded_form self fs calls Hfs Hne Hlat) as (routing & Hrouting & ->).
  destruct (summary_recorded_form self' fs' calls' Hfs' Hne' Hlat')
    as (routing' & Hrouting' & ->).
  assert (Hsame : routing' = routing).
  { apply map_eq. intros key. rewrite Hrouting, Hrouting', !reader_recorded.
    unfold occurrences. f_equal. symmetry. apply count_perm, Permutation_map, Hperm. }
  rewrite Hsame.
  rewrite <- (Permutation_length Hperm).
  rewrite <- (sum_int_perm _ _ (Permutation_map _ Hperm)).
  rewrite <- (sum_int_perm _ _ (Permutation_map snd Hperm)).
  rewrite <- (count_perm triggered _ _ Hperm), <- (count_perm changed _ _ Hperm).
  apply statistics_of_latency; [apply calls_counted, Hne | apply count_bound].
Qed.

(** C4: the division that gives [change_rate] is guarded. On a store
    that the recorder wrote, with at least one data row, whose cells the
    reader returns as they were written, the summary returns statistics or
    raises [OverflowError], and it returns statistics when the row count
    and the totals are below [2^53]; in the statistics [change_rate] is the
    integer 0 when no row has [is_fairness_triggered] equal to [True], and
    the quotient of [decision_changes] by [triggers] when some row has. On
    any store whatsoever, no [ZeroDivisionError] is raised, and statistics
    that are returned carry that guarded quotient. *)
Theorem change_rate_guard self fs calls :
  fs !! log_path self = Some (headers :: map csv_row calls) ->
  calls <> [] ->
  Forall latency_readable calls ->
  Forall Csv.as_written (map csv_row calls) ->
  ((exists st : Stats,
      get_summary_stats self fs = Ok (Statistics st) /\
      triggers (fairness_metrics st)
        = rows_marked "is_fairness_triggered"
            (Csv.DictReader (headers :: map csv_row calls)) /\
      decision_changes (fairness_metrics st)
        = rows_marked "fairness_decision_changed"
            (Csv.DictReader (headers :: map csv_row calls)) /\
      (triggers (fairness_metrics st) = 0 ->
         change_rate (fairness_metrics st) = NInt 0) /\
      (0 < triggers (fairness_metrics st) ->
         exists q : PyFloat.float,
           PyFloat.int_truediv (decision_changes (fairness_metrics st))
                               (triggers (fairness_metrics st)) = Ok q /\
           change_rate (fairness_metrics st) = NFloat q))
   \/ get_summary_stats self fs = Raise OverflowError) /\
  (counts_in_range calls ->
     exists st : Stats, get_summary_stats self fs = Ok (Statistics st)) /\
  (forall (any : ResearchLogger) (store : filesystem),
     get_summary_stats any store <> Raise ZeroDivisionError) /\
  (forall (any : ResearchLogger) (store : filesystem) (st : Stats),
     get_summary_stats any store = Ok (Statistics st) ->
     (triggers (fairness_metrics st) = 0 ->
        change_rate (fairness_metrics st) = NInt 0) /\
     (0 < triggers (fairness_metrics st) ->
        exists q : PyFloat.float,
          PyFloat.int_truediv (decision_changes (fairness_metrics st))
                              (triggers (fairness_metrics st)) = Ok q /\
          change_rate (fairness_metrics st) = NFloat q)).
Proof.
  intros Hstore Hne Hlat _.
  assert (Hguard : forall (any : ResearchLogger) (store : filesystem) (st : Stats),
            get_summary_stats any store = Ok (Statistics st) ->
            (triggers (fairness_metrics st) = 0 ->
               change_rate (fairness_metrics st) = NInt 0) /\
            (0 < triggers (fairness_metrics st) ->
               exists q : PyFloat.float,
                 PyFloat.int_truediv (decision_changes (fairness_metrics st))
                                     (triggers (fairness_metrics st)) = Ok q /\
                 change_rate (fairness_metrics st) = NFloat q)).
  { intros any store st Hst.
    destruct (summary_counts any store st Hst) as (f & _ & _ & Htr & _).
    apply (guarded_quotient _ _ _ (summary_change_rate any store st Hst)).
    rewrite Htr. unfold rows_marked. apply count_bound. }
  split; [| split; [| split]].
  - destruct (recorded_cases self fs calls Hstore Hne Hlat) as [[st Hst] | Hover];
      [left | right; exact Hover].
    exists st. split; [exact Hst |].
    destruct (summary_counts self fs st Hst) as (f & Hf & _ & Htr & Hch).
    rewrite Hstore in Hf. injection Hf as <-.
    split; [exact Htr |]. split; [exact Hch |].
    apply (Hguard self fs st Hst).
  - intros Hrange.
    destruct (summary_recorded self fs calls Hstore Hne Hlat Hrange) as (st & Hst & _).
    eauto.
  - intros any store. apply summary_no_zero_division.
  - exact Hguard.
Qed.

End RecordedStores.

(** ** The instance and the file system between two calls *)

Section Stateless.

Context `{Schemas} `{FloatText}.

Lemma perform_reading {X : Type} (o : op X) (w : world) :
  reading o = true -> snd (perform o w) = w.
Proof.
  destruct o as [name | name value | path | path row | path row | path];
    try discriminate; intros _; cbn [perform].
  - destruct (attrs w !! name); reflexivity.
  - reflexivity.
  - destruct (files w !! path); reflexivity.
Qed.

(** A program of reading operations ends in the state it started in,
    whatever it returns or raises. *)
Lemma run_reads_only {A : Type} (p : prog A) :
  reads_only p -> forall w : world, snd (run p w) = w.
Proof.
  induction p as [a | e | X o k IH]; intros Hp w; cbn [run]; try reflexivity.
  destruct Hp as [Ho Hk]. pose proof (perform_reading o w Ho) as Hw.
  destruct (perform o w) as [[x | r] w']; cbn [snd] in Hw; subst w'.
  - apply IH, Hk.
  - reflexivity.
Qed.

Lemma lift_reads_only {A : Type} (r : result A) : reads_only (lift r).
Proof. destruct r; exact I. Qed.

Lemma run_lift {A : Type} (r : result A) (w : world) : run (lift r) w = (embed r, w).
Proof. destruct r; reflexivity. Qed.

(** The recorder writes: its programs are not reading programs. *)
Lemma log_decision_writes (d : CreditDecision.t) (k : Z) :
  ~ reads_only (log_decision_prog d k).
Proof. intros [_ Hk]. destruct (Hk "") as [Hwrite _]. discriminate. Qed.

Lemma init_csv_writes : ~ reads_only _init_csv_prog.
Proof.
  intros [_ Hk]. destruct (Hk "") as [_ Hfound].
  destruct (Hfound false) as [_ Hpath]. destruct (Hpath "") as [Hwrite _].
  discriminate.
Qed.

(** [get_summary_stats] sets no attribute and writes no file. *)
Lemma summary_reads_only : reads_only get_summary_stats_prog.
Proof.
  split; [reflexivity |]. intros path.
  split; [reflexivity |]. intros [|]; [| exact I].
  split; [reflexivity |]. intros path'.
  split; [reflexivity |]. intros rows. apply lift_reads_only.
Qed.

(** The program of [get_summary_stats] returns what the function on the
    file system returns. *)
Lemma run_summary (w : world) (p : string) :
  attrs w !! "log_path" = Some p ->
  run get_summary_stats_prog w
  = (embed (get_summary_stats {| log_path := p |} (files w)), w).
Proof.
  intros Hp. rewrite summary_unfold. cbn [log_path].
  unfold get_summary_stats_prog. cbn [run perform]. rewrite Hp.
  destruct (files w !! p) as [f |] eqn:Hf.
  - rewrite bool_decide_eq_true_2 by eauto.
    cbn [run perform]. rewrite Hp, Hf. apply run_lift.
  - rewrite bool_decide_eq_false_2 by (intros [? ?]; discriminate). reflexivity.
Qed.

Lemma run_summary_no_path (w : world) :
  attrs w !! "log_path" = None ->
  run get_summary_stats_prog w = (Failed (AttributeError "log_path"), w).
Proof. intros Hp. unfold get_summary_stats_prog. cbn [run perform]. rewrite Hp. reflexivity. Qed.

(** The programs of the recorder change the file system as the functions
    on the file system say, and no attribute. *)
Lemma run_log_decision (w : world) (p : string) (d : CreditDecision.t) (k : Z) :
  attrs w !! "log_path" = Some p ->
  run (log_decision_prog d k) w
  = (Returned tt,
     {| attrs := attrs w; files := log_decision {| log_path := p |} d k (files w) |}).
Proof.
  intros Hp. unfold log_decision_prog. cbn [run perform]. rewrite Hp. reflexivity.
Qed.

Lemma run_init_csv (w : world) (p : string) :
  attrs w !! "log_path" = Some p ->
  run _init_csv_prog w
  = (Returned tt,
     {| attrs := attrs w; files := _init_csv {| log_path := p |} (files w) |}).
Proof.
  intros Hp. unfold _init_csv_prog, _init_csv. cbn [run perform log_path]. rewrite Hp.
  destruct (files w !! p) as [f |] eqn:Hf.
  - rewrite bool_decide_eq_true_2 by eauto. destruct w; reflexivity.
  - rewrite bool_decide_eq_false_2 by (intros [? ?]; discriminate).
    cbn [run perform]. rewrite Hp. reflexivity.
Qed.

Lemma session_without_summaries (calls : list call) :
  forall w : world,
    snd (session calls w) = snd (session (filter (fun c => is_log c = true) calls) w).
Proof.
  induction calls as [| [d k |] calls IH]; intros w; [reflexivity | |].
  - rewrite filter_cons_True by reflexivity. cbn [session]. apply IH.
  - rewrite filter_cons_False by discriminate. cbn [session].
    pose proof (run_reads_only _ summary_reads_only w) as Hw.
    destruct (run get_summary_stats_prog w) as [r w']. cbn [snd] in Hw. subst w'.
    rewrite <- IH. destruct (session calls w). reflexivity.
Qed.

Lemma session_last_summary (calls : list call) :
  forall w : world,
    exists earlier : list (outcome Summary),
      fst (session (calls ++ [Summarize]) w)
      = (earlier
         ++ [fst (run get_summary_stats_prog
                    (snd (session (filter (fun c => is_log c = true) calls) w)))])%list.
Proof.
  induction calls as [| [d k |] calls IH]; intros w.
  - exists []. rewrite filter_nil. cbn [app session snd].
    destruct (run get_summary_stats_prog w) as [r w']. reflexivity.
  - rewrite filter_cons_True by reflexivity. cbn [app session]. apply IH.
  - rewrite filter_cons_False by discriminate. cbn [app session].
    pose proof (run_reads_only _ summary_reads_only w) as Hw.
    destruct (run get_summary_stats_prog w) as [r w']. cbn [snd] in Hw. subst w'.
    destruct (IH w) as [earlier Hearlier].
    destruct (session (calls ++ [Summarize]) w) as [rs w''].
    exists (r :: earlier). cbn [fst] in *. rewrite Hearlier. reflexivity.
Qed.

(** C9: the program of [get_summary_stats] only reads: it ends in the
    state it started in, attributes and files, whatever it returns or
    raises; what it returns is the summary of the file under [log_path] as
    it is at the call, the same for two instances, with whatever other
    attributes, whose paths hold the same file; and in a session of logged
    decisions and summaries the summaries leave no trace: the state at the
    end is that of the logged decisions alone, and a summary is the one
    that the logged decisions before it give, however many summaries were
    made before. *)
Theorem summary_stateless :
  reads_only get_summary_stats_prog /\
  (forall w : world, snd (run get_summary_stats_prog w) = w) /\
  (forall (w : world) (p : string),
     attrs w !! "log_path" = Some p ->
     fst (run get_summary_stats_prog w)
     = embed (get_summary_stats {| log_path := p |} (files w))) /\
  (forall (w1 w2 : world) (p1 p2 : string),
     attrs w1 !! "log_path" = Some p1 ->
     attrs w2 !! "log_path" = Some p2 ->
     files w1 !! p1 = files w2 !! p2 ->
     fst (run get_summary_stats_prog w1) = fst (run get_summary_stats_prog w2)) /\
  (forall w : world,
     let '(first, w') := run get_summary_stats_prog w in
     run get_summary_stats_prog w' = (first, w')) /\
  (forall (calls : list call) (w : world),
     snd (session calls w)
     = snd (session (filter (fun c => is_log c = true) calls) w)) /\
  (forall (calls : list call) (w : world),
     exists earlier : list (outcome Summary),
       fst (session (calls ++ [Summarize]) w)
       = (earlier
          ++ [fst (run get_summary_stats_prog
                     (snd (session (filter (fun c => is_log c = true) calls) w)))])%list).
Proof.
  split; [exact summary_reads_only |].
  split; [exact (run_reads_only _ summary_reads_only) |].
  split; [intros w p Hp; rewrite (run_summary w p Hp); reflexivity |].
  split.
  { intros w1 w2 p1 p2 Hp1 Hp2 Hsame.
    rewrite (run_summary w1 p1 Hp1), (run_summary w2 p2 Hp2). cbn [fst].
    rewrite !summary_unfold. cbn [log_path]. rewrite Hsame. reflexivity. }
  split.
  { intros w. pose proof (run_reads_only _ summary_reads_only w) as Hw.
    destruct (run get_summary_stats_prog w) as [first w'] eqn:Hrun.
    cbn [snd] in Hw. subst w'. exact Hrun. }
  split; [exact session_without_summaries | exact session_last_summary].
Qed.

End Stateless.

(** ** The scenarios of the recorded store and of the session *)

Section RecordedScenarios.

Import Scenario Cases.

(** The claim that every store without a triggered row gives a
    [change_rate] of 0 fails on the store that holds the header only, which
    gives the condition [Log file is empty], and on a store whose token
    total is beyond the range of a float, which raises [OverflowError]. *)
Lemma change_rate_guard_counterexample :
  (store_of [] !! log_path logger = Some [headers] /\
   rows_marked "is_fairness_triggered" (Csv.DictReader [headers]) = 0 /\
   get_summary_stats logger (store_of []) = Ok (Error "Log file is empty")) /\
  (store_of [(huge, 0)] !! log_path logger = Some [headers; csv_row (huge, 0)] /\
   rows_marked "is_fairness_triggered" (Csv.DictReader [headers; csv_row (huge, 0)]) = 0 /\
   get_summary_stats logger (store_of [(huge, 0)]) = Raise OverflowError) /\
  ~ (forall (fs : filesystem) (f : Csv.file),
       fs !! log_path logger = Some f ->
       rows_marked "is_fairness_triggered" (Csv.DictReader f) = 0 ->
       exists st : Stats,
         get_summary_stats logger fs = Ok (Statistics st) /\
         num_eq_int (change_rate (fairness_metrics st)) 0 = true).
Proof.
  assert (Hfile : store_of [] !! log_path logger = Some [headers])
    by (vm_compute; reflexivity).
  assert (Hsummary : get_summary_stats logger (store_of [])
                     = Ok (Error "Log file is empty"))
    by (vm_compute; reflexivity).
  split; [| split].
  - split; [exact Hfile |]. split; [reflexivity | exact Hsummary].
  - repeat split; vm_compute; reflexivity.
  - intros Hclaim.
    destruct (Hclaim (store_of []) [headers] Hfile eq_refl) as (st & Hst & _).
    rewrite Hsummary in Hst. discriminate.
Qed.

Lemma change_rate_guard_witness :
  store_of untriggered_calls !! log_path logger
    = Some (headers :: map csv_row untriggered_calls) /\
  untriggered_calls <> [] /\
  Forall latency_readable untriggered_calls /\
  Forall Csv.as_written (map csv_row untriggered_calls) /\
  exists st : Stats,
    get_summary_stats logger (store_of untriggered_calls) = Ok (Statistics st) /\
    triggers (fairness_metrics st) = 0 /\
    decision_changes (fairness_metrics st) = 1 /\
    change_rate (fairness_metrics st) = NInt 0.
Proof.
  assert (H1 : store_of untriggered_calls !! log_path logger
               = Some (headers :: map csv_row untriggered_calls))
    by (vm_compute; reflexivity).
  assert (H2 : untriggered_calls <> []) by discriminate.
  assert (H3 : Forall latency_readable untriggered_calls) by (repeat constructor).
  assert (H4 : Forall Csv.as_written (map csv_row untriggered_calls))
    by (repeat constructor).
  assert (H5 : counts_in_range untriggered_calls)
    by (repeat split; vm_compute; reflexivity).
  destruct (change_rate_guard logger (store_of untriggered_calls) untriggered_calls
              H1 H2 H3 H4) as (Hcases & Hreturned & _ & Hguard).
  repeat (split; [assumption |]).
  destruct (Hreturned H5) as [st Hst]. exists st. split; [exact Hst |].
  destruct (summary_counts logger _ st Hst) as (f & Hf & _ & Htr & Hch).
  rewrite H1 in Hf. injection Hf as <-.
  assert (Htr0 : triggers (fairness_metrics st) = 0) by (rewrite Htr; reflexivity).
  split; [exact Htr0 |].
  split; [rewrite Hch; reflexivity |].
  apply (Hguard logger _ st Hst), Htr0.
Defined.

Lemma columns_aligned_witness :
  Csv.as_written (csv_row (round_trip, 2)) /\
  Csv.make_row headers (csv_row (round_trip, 2)) !! "applicant_id" = Some (Some "A-1") /\
  Csv.make_row headers (csv_row (round_trip, 2)) !! "latency_ms" = Some (Some "120.5") /\
  Csv.make_row headers (csv_row (round_trip, 2)) !! "elapsed" = None.
Proof.
  assert (Hwritten : Csv.as_written (csv_row (round_trip, 2))) by (repeat constructor).
  destruct (columns_aligned round_trip 2 Hwritten)
    as (_ & _ & Hkeys & _ & _ & Hid & _ & _ & Hlat & _).
  split; [exact Hwritten |]. split; [exact Hid |]. split; [exact Hlat |].
  destruct (Csv.make_row headers (csv_row (round_trip, 2)) !! "elapsed") eqn:Hkey;
    [| reflexivity].
  exfalso. assert (Hin : "elapsed" ∈ headers) by (apply Hkeys; eauto).
  revert Hin. refine (bool_decide_unpack ("elapsed" ∉ headers) _). vm_compute. exact I.
Defined.

Lemma malformed_first_row_witness :
  truncated !! log_path logger = Some [headers; truncated_row] /\
  truncated_row <> [] /\
  Forall Csv.as_written [truncated_row] /\
  garbled !! log_path logger = Some [headers; garbled_row] /\
  garbled_row <> [] /\
  Forall Csv.as_written [garbled_row] /\
  PyInt.is_ascii "n/a" = true /\
  get_summary_stats logger truncated = Raise TypeError /\
  get_summary_stats logger garbled = Raise ValueError.
Proof.
  assert (H1 : truncated !! log_path logger = Some [headers; truncated_row])
    by (vm_compute; reflexivity).
  assert (H2 : truncated_row <> []) by discriminate.
  assert (H3 : Forall Csv.as_written [truncated_row]) by (repeat constructor).
  assert (H4 : garbled !! log_path logger = Some [headers; garbled_row])
    by (vm_compute; reflexivity).
  assert (H5 : garbled_row <> []) by discriminate.
  assert (H6 : Forall Csv.as_written [garbled_row]) by (repeat constructor).
  assert (H7 : PyInt.is_ascii "n/a" = true) by reflexivity.
  repeat (split; [assumption |]).
  split.
  - apply (malformed_first_row logger truncated truncated_row [] H1 H2 H3).
    vm_compute. repeat constructor.
  - apply (malformed_first_row logger garbled garbled_row [] H4 H5 H6) with (cell := "n/a");
      reflexivity.
Defined.

Lemma recorded_store_only_overflows_witness :
  store_of [(huge, 0)] !! log_path logger = Some (headers :: map csv_row [(huge, 0)]) /\
  [(huge, 0)] <> [] /\
  Forall latency_readable [(huge, 0)] /\
  Forall Csv.as_written (map csv_row [(huge, 0)]) /\
  ((exists st : Stats,
      get_summary_stats logger (store_of [(huge, 0)]) = Ok (Statistics st))
   \/ get_summary_stats logger (store_of [(huge, 0)]) = Raise OverflowError).
Proof.
  assert (H1 : store_of [(huge, 0)] !! log_path logger
               = Some (headers :: map csv_row [(huge, 0)]))
    by (vm_compute; reflexivity).
  assert (H2 : [(huge, 0)] <> []) by discriminate.
  assert (H3 : Forall latency_readable [(huge, 0)]) by (repeat constructor).
  assert (H4 : Forall Csv.as_written (map csv_row [(huge, 0)]))
    by (vm_compute; repeat constructor).
  repeat (split; [assumption |]).
  exact (recorded_store_only_overflows logger _ _ H1 H2 H3 H4).
Defined.

Lemma aggregates_recorded_witness :
  store_of untriggered_calls !! log_path logger
    = Some (headers :: map csv_row untriggered_calls) /\
  untriggered_calls <> [] /\
  Forall latency_readable untriggered_calls /\
  Forall Csv.as_written (map csv_row untriggered_calls) /\
  counts_in_range untriggered_calls /\
  exists st : Stats,
    get_summary_stats logger (store_of untriggered_calls) = Ok (Statistics st) /\
    total_evaluations st = 2 /\
    total (token_usage st) = 0 /\
    average_latency_ms (performance st) = f0_5 /\
    total_key_switches (resilience st) = 1 /\
    switch_rate (resilience st) = f0_5.
Proof.
  assert (H1 : store_of untriggered_calls !! log_path logger
               = Some (headers :: map csv_row untriggered_calls))
    by (vm_compute; reflexivity).
  assert (H2 : untriggered_calls <> []) by discriminate.
  assert (H3 : Forall latency_readable untriggered_calls) by (repeat constructor).
  assert (H4 : Forall Csv.as_written (map csv_row untriggered_calls))
    by (repeat constructor).
  assert (H5 : counts_in_range untriggered_calls)
    by (repeat split; vm_compute; reflexivity).
  repeat (split; [assumption |]).
  destruct (aggregates_recorded logger _ _ H1 H2 H3 H4 H5)
    as (st & Hst & Hn & Htot & _ & _ & Hlat & Hsw & Hrate).
  exists st. split; [exact Hst |].
  split; [exact Hn |]. split; [exact Htot |].
  assert (Hlat' : PyFloat.truediv_int
                    (float_sum (map (fun c => CreditDecision.processing_time_ms (fst c))
                                    untriggered_calls))
                    (Z.of_nat (length untriggered_calls)) = Ok f0_5) by reflexivity.
  assert (Hrate' : PyFloat.int_truediv (sum_int (map snd untriggered_calls))
                     (Z.of_nat (length untriggered_calls)) = Ok f0_5) by reflexivity.
  rewrite Hlat' in Hlat. rewrite Hrate' in Hrate.
  injection Hlat as <-. injection Hrate as <-.
  split; [reflexivity |]. split; [exact Hsw | reflexivity].
Defined.

Lemma row_order_irrelevant_witness :
  lopsided_calls ≡ₚ reordered_calls /\
  store_of lopsided_calls !! log_path logger
    = Some (headers :: map csv_row lopsided_calls) /\
  store_of reordered_calls !! log_path logger
    = Some (headers :: map csv_row reordered_calls) /\
  lopsided_calls <> [] /\
  Forall latency_readable lopsided_calls /\
  Forall Csv.as_written (map csv_row lopsided_calls) /\
  exists st st' : Stats,
    get_summary_stats logger (store_of lopsided_calls) = Ok (Statistics st) /\
    get_summary_stats logger (store_of reordered_calls) = Ok (Statistics st') /\
    fairness_metrics st = fairness_metrics st' /\
    routing_distribution st = routing_distribution st'.
Proof.
  assert (H0 : lopsided_calls ≡ₚ reordered_calls) by apply perm_swap.
  assert (H1 : store_of lopsided_calls !! log_path logger
               = Some (headers :: map csv_row lopsided_calls))
    by (vm_compute; reflexivity).
  assert (H2 : store_of reordered_calls !! log_path logger
               = Some (headers :: map csv_row reordered_calls))
    by (vm_compute; reflexivity).
  assert (H3 : lopsided_calls <> []) by discriminate.
  assert (H4 : Forall latency_readable lopsided_calls) by (repeat constructor).
  assert (H5 : Forall Csv.as_written (map csv_row lopsided_calls))
    by (repeat constructor).
  repeat (split; [assumption |]).
  destruct (row_order_irrelevant logger logger _ _ _ _ H0 H1 H2 H3 H4 H5)
    as [[Hover _] | (st & st' & Hst & Hst' & _ & _ & Hdist & Hfair & _)].
  - exfalso. revert Hover. vm_compute. discriminate.
  - exists st, st'. repeat split; assumption.
Defined.

(** A session on a fresh instance: the summary before any decision is
    logged is the empty condition, the two summaries after the first
    decision are the same statistics, and all four are those of the store
    as it is at the call. *)
Example busy_session_example :
  let start := snd (run (__init___prog "logs/research_logs.csv")
                        {| attrs := ∅; files := ∅ |}) in
  let '(summaries, final) := session busy_session start in
  attrs final = attrs start /\
  files final
    = log_all logger [(round_trip, 2); (with_fairness false true, 1)] (files start) /\
  summaries
    = [ Returned (Error "Log file is empty");
        embed (get_summary_stats logger (store_of [(round_trip, 2)]));
        embed (get_summary_stats logger (store_of [(round_trip, 2)]));
        embed (get_summary_stats logger
                 (store_of [(round_trip, 2); (with_fairness false true, 1)])) ].
Proof. vm_compute. repeat split; reflexivity. Qed.

End RecordedScenarios.
